(** * geobenchmark: test-data preparation ([testdata.py])

    A shallow embedding of [prepare_dst_path], [download_samplefile] and
    [TestFile.get_file], and the properties of the fetch-and-normalise
    routine: cache hit, direct download, unpack/convert branch, selection of
    the working file inside an unzipped archive, relocation or conversion,
    and the clean-up of the scratch directory.

    The routine is effectful Python.  It is embedded as a computation in a
    state-and-exception monad over a world made of a file system and the
    journal of the operations the routine issued.  [pathlib], [shutil] and
    the file system are modelled here; the network, the zip archive, the
    directory traversal order and the [geofileops] library are collaborators
    whose behaviour is left open: they are fields of a [Platform] record and
    every theorem holds for all platforms. *)

From Stdlib Require Import Ascii String DecimalString.
From stdpp Require Import gmap strings list fin_maps.

Open Scope string_scope.
Open Scope list_scope.

(** ** Strings, the way Python's [str] is used by the module *)

Module PyStr.

(** [s.lower()], on the ASCII range. *)
Definition lower_char (c : ascii) : ascii :=
  let n := Ascii.nat_of_ascii c in
  if (65 <=? n)%nat && (n <=? 90)%nat then Ascii.ascii_of_nat (n + 32) else c.

Fixpoint lower (s : string) : string :=
  match s with
  | EmptyString => EmptyString
  | String c s' => String (lower_char c) (lower s')
  end.

(** [s.rfind(c)]: the highest index where [c] occurs, [None] for -1. *)
Fixpoint rfind (c : ascii) (s : string) : option nat :=
  match s with
  | EmptyString => None
  | String a s' =>
      match rfind c s' with
      | Some i => Some (S i)
      | None => if Ascii.eqb a c then Some 0%nat else None
      end
  end.

(** [s[:i]] and [s[i:]]. *)
Fixpoint take (i : nat) (s : string) : string :=
  match i, s with
  | S i', String a s' => String a (take i' s')
  | _, _ => EmptyString
  end.

Fixpoint drop (i : nat) (s : string) : string :=
  match i, s with
  | S i', String _ s' => drop i' s'
  | _, _ => s
  end.

(** [s.split(sep)] for a one-character separator. *)
Fixpoint split (sep : ascii) (s : string) : list string :=
  match s with
  | EmptyString => [EmptyString]
  | String a s' =>
      if Ascii.eqb a sep then EmptyString :: split sep s'
      else match split sep s' with
           | h :: t => String a h :: t
           | [] => [String a EmptyString]
           end
  end.

(** [sep.join(l)]. *)
Fixpoint join (sep : string) (l : list string) : string :=
  match l with
  | [] => EmptyString
  | [x] => x
  | x :: l' => x +:+ sep +:+ join sep l'
  end.

(** [s.startswith(p)] and [s.endswith(p)]. *)
Definition startswith (p s : string) : bool := String.prefix p s.

Definition endswith (p s : string) : bool :=
  String.prefix (String.rev p) (String.rev s).

(** [str(n)] for a length. *)
Definition of_nat (n : nat) : string := NilZero.string_of_uint (Nat.to_uint n).


End PyStr.

(** ** [pathlib.PurePosixPath]

    A path is its [parts] tuple: [PurePosixPath('/d/a.gpkg').parts] is
    [('/', 'd', 'a.gpkg')], and [PurePosixPath('.').parts] is [()].  Paths
    are compared as pathlib compares them, by their normalised text, which is
    equality of the parts.  Components [..] are kept as they are (pathlib
    does not resolve them), and so are symbolic links.  [suffix] and [stem]
    are those of Python 3.8 to 3.13. *)

Abbreviation Path := (list string).

Module Pathlib.

Definition is_anchor (c : string) : bool :=
  String.eqb c "/" || String.eqb c "//".

Definition has_anchor (p : Path) : bool :=
  match p with
  | c :: _ => is_anchor c
  | [] => false
  end.

(** The root and the current directory: paths without a [name]. *)
Definition is_root (p : Path) : bool :=
  match p with
  | [] => true
  | [c] => is_anchor c
  | _ => false
  end.

(** [PurePosixPath(s)]: exactly two leading slashes are kept as the root
    [//], any other number is [/]; empty and [.] components vanish. *)
Definition root_of (s : string) : string :=
  if PyStr.startswith "///" s then "/"
  else if PyStr.startswith "//" s then "//"
  else if PyStr.startswith "/" s then "/"
  else "".

Definition keep_component (c : string) : bool :=
  negb (String.eqb c "") && negb (String.eqb c ".").

Definition components (s : string) : list string :=
  List.filter keep_component (PyStr.split "/" s).

Definition parse (s : string) : Path :=
  match root_of s with
  | EmptyString => components s
  | r => r :: components s
  end.

(** [p / s] for a string [s]: an absolute right operand replaces [p]. *)
Definition joinpath (p : Path) (s : string) : Path :=
  let q := parse s in
  if has_anchor q then q else p ++ q.

(** [p.name], [p.parent]. *)
Definition name (p : Path) : string :=
  if is_root p then "" else List.last p "".

Definition parent (p : Path) : Path :=
  if is_root p then p else List.removelast p.

(** [p.suffix] and [p.stem]: split the name at its last dot, unless that
    dot is the first or the last character. *)
Definition dot_index (n : string) : option nat :=
  match PyStr.rfind "." n with
  | Some i => if (0 <? i)%nat && (i <? String.length n - 1)%nat then Some i else None
  | None => None
  end.

Definition suffix (p : Path) : string :=
  match dot_index (name p) with
  | Some i => PyStr.drop i (name p)
  | None => ""
  end.

Definition stem (p : Path) : string :=
  match dot_index (name p) with
  | Some i => PyStr.take i (name p)
  | None => name p
  end.

(** [str(p)]. *)
Definition str (p : Path) : string :=
  match p with
  | [] => "."
  | c :: rest => if is_anchor c then c +:+ PyStr.join "/" rest else PyStr.join "/" p
  end.

(** [fnmatch] of a name against the pattern [*suf], where [suf] has no
    wildcard: the patterns [rglob] is called with. *)
Definition match_star (suf : string) (p : Path) : bool :=
  PyStr.endswith suf (name p).

End Pathlib.

Notation "p // s" := (Pathlib.joinpath p s) (at level 40, left associativity).

(** ** The file system *)

Inductive Kind := File | Dir.

#[export] Instance Kind_eq_dec : EqDecision Kind.
Proof. solve_decision. Defined.

Abbreviation FS := (gmap Path Kind).

Inductive Exn :=
| Exception (msg : string)
| FileExistsError (p : Path)
| FileNotFoundError (p : Path)
| NotADirectoryError (p : Path)
| IndexError
| PlatformError (what : string).

Inductive Outcome (A : Type) :=
| Ok (a : A)
| Raise (e : Exn).
Arguments Ok {A} a.
Arguments Raise {A} e.

Module FileSystem.

(** What is at [p]: the root and the current directory are always there. *)
Definition node (fs : FS) (p : Path) : option Kind :=
  if Pathlib.is_root p then Some Dir else fs !! p.

(** [p.exists()], [p.is_dir()]. *)
Definition exists_ (fs : FS) (p : Path) : bool :=
  match node fs p with Some _ => true | None => false end.

Definition is_dir (fs : FS) (p : Path) : bool :=
  match node fs p with Some Dir => true | _ => false end.

(** [os.mkdir(p)]: the parent is resolved first. *)
Definition os_mkdir (p : Path) (fs : FS) : Outcome FS :=
  match node fs (Pathlib.parent p) with
  | None => Raise (FileNotFoundError p)
  | Some File => Raise (NotADirectoryError p)
  | Some Dir =>
      match node fs p with
      | Some _ => Raise (FileExistsError p)
      | None => Ok (<[p := Dir]> fs)
      end
  end.

(** [p.mkdir(parents=False, exist_ok=True)]. *)
Definition mkdir_exist_ok (p : Path) (fs : FS) : Outcome FS :=
  match os_mkdir p fs with
  | Ok fs' => Ok fs'
  | Raise (FileNotFoundError q) => Raise (FileNotFoundError q)
  | Raise e => if is_dir fs p then Ok fs else Raise e
  end.

(** [p.mkdir(parents=True, exist_ok=True)], as pathlib writes it: try
    [os.mkdir]; when the parent is missing, make the parent in the same
    way and try again.  [n] bounds the depth of the recursion; the length
    of [p] is enough ([mkdir_fuel] below). *)
Fixpoint mkdir_parents (n : nat) (p : Path) (fs : FS) : Outcome FS :=
  match os_mkdir p fs with
  | Ok fs' => Ok fs'
  | Raise (FileNotFoundError q) =>
      match n with
      | O => Raise (FileNotFoundError q)
      | S n' =>
          match mkdir_parents n' (Pathlib.parent p) fs with
          | Ok fs1 => mkdir_exist_ok p fs1
          | Raise e => Raise e
          end
      end
  | Raise e => if is_dir fs p then Ok fs else Raise e
  end.

Definition mkdir (p : Path) (fs : FS) : Outcome FS :=
  mkdir_parents (length p) p fs.

(** [shutil.rmtree(p)]: [p] must be a directory; it goes with everything
    below it. *)
Definition below (p : Path) (entry : Path * Kind) : Prop :=
  p `prefix_of` entry.1.

#[export] Instance below_dec p entry : Decision (below p entry).
Proof. unfold below. apply _. Defined.

Definition rmtree (p : Path) (fs : FS) : Outcome FS :=
  match node fs p with
  | None => Raise (FileNotFoundError p)
  | Some File => Raise (NotADirectoryError p)
  | Some Dir => Ok (filter (λ entry, ¬ below p entry) fs)
  end.

End FileSystem.

(** ** [repr] and [pprint.pformat], for the text of the fatal error *)

Module PyRepr.

Definition dquote : ascii := "034"%char.
Definition squote : ascii := "'"%char.
Definition backslash : ascii := "\"%char.
Definition newline : string := String "010"%char EmptyString.

Fixpoint has_char (c : ascii) (s : string) : bool :=
  match s with
  | EmptyString => false
  | String a s' => Ascii.eqb a c || has_char c s'
  end.

Definition hex_digit (n : nat) : ascii :=
  nth n (list_ascii_of_string "0123456789abcdef") "0"%char.

(** Code points below 256 that [str.isprintable] accepts. *)
Definition printable (n : nat) : bool :=
  (32 <=? n)%nat && (n <? 127)%nat || (161 <=? n)%nat && negb (n =? 173)%nat.

Definition escape (q c : ascii) : string :=
  let n := nat_of_ascii c in
  if Ascii.eqb c q || Ascii.eqb c backslash then String backslash (String c EmptyString)
  else if (n =? 9)%nat then "\t"
  else if (n =? 10)%nat then "\n"
  else if (n =? 13)%nat then "\r"
  else if printable n then String c EmptyString
  else String backslash (String "x" (String (hex_digit (n / 16))
                                       (String (hex_digit (n mod 16)) EmptyString))).

Fixpoint escape_all (q : ascii) (s : string) : string :=
  match s with
  | EmptyString => EmptyString
  | String c s' => escape q c +:+ escape_all q s'
  end.

(** [repr(s)] of a string: single quotes, unless the text has a single
    quote and no double quote. *)
Definition repr_str (s : string) : string :=
  let q := if has_char squote s && negb (has_char dquote s) then dquote else squote in
  String q (escape_all q s +:+ String q EmptyString).

(** [repr(p)] of a path. *)
Definition repr_path (p : Path) : string :=
  "PosixPath(" +:+ repr_str (Pathlib.str p) +:+ ")".

(** [pprint.pformat(l)] of a list of paths, at the default width of 80:
    the [repr] of the list when it fits, else one path per line. *)
Definition pformat (l : list Path) : string :=
  let one_line := "[" +:+ PyStr.join ", " (List.map repr_path l) +:+ "]" in
  if (String.length one_line <=? 80)%nat then one_line
  else "[" +:+ PyStr.join ("," +:+ newline +:+ " ") (List.map repr_path l) +:+ "]".

End PyRepr.

(** ** The world, and computations over it *)

(** What the routine asks of its collaborators, in the order it asks. *)
Inductive Event :=
| EMkdir (p : Path)
| ERmtree (p : Path)
| EUrlretrieve (url : string) (filename : Path)
| EExtractall (archive dir : Path)
| EShutilMove (src dst : Path)
| EGfoMove (src dst : Path)
| EGfoMakevalid (input_path output_path : Path)
| ELoggerInfo (msg : string)
| ELoggerDebug (msg : string).

Record World := mkWorld { fs : FS; journal : list Event }.

(** An operation of a collaborator: it may change the file system and it
    may raise, also after it has changed something. *)
Definition Effect (A : Type) : Type := FS -> Outcome A * FS.

(** The collaborators of the module, outside this repository: the platform
    ([tempfile]), the network ([urllib.request]), the archive ([zipfile]),
    the order in which a directory tree is walked, [shutil.move] and the
    [geofileops] library. *)
Record Platform := mkPlatform {
  gettempdir : string;
  urlretrieve : string -> Path -> Effect unit;
  zip_extractall : Path -> Path -> Effect unit;
  walk : FS -> Path -> list Path;
  shutil_move : Path -> Path -> Effect unit;
  gfo_move : Path -> Path -> Effect unit;
  gfo_makevalid : Path -> Path -> Effect unit;
  gfo_is_geofile : Path -> FS -> Outcome bool;
  gfo_get_layerinfo : Path -> FS -> Outcome nat
}.

Definition M (A : Type) : Type := World -> Outcome A * World.

Definition ret {A : Type} (a : A) : M A := λ w, (Ok a, w).

Definition bind {A B : Type} (m : M A) (k : A -> M B) : M B := λ w,
  match m w with
  | (Ok a, w') => k a w'
  | (Raise e, w') => (Raise e, w')
  end.

Notation "'do' x <- m ; k" := (bind m (λ x, k))
  (at level 10, x name, m at level 100, k at level 200, only parsing).
Notation "'exec' m ; k" := (bind m (λ _, k))
  (at level 10, m at level 100, k at level 200, only parsing).

Definition raise {A : Type} (e : Exn) : M A := λ w, (Raise e, w).

(** [try: body finally: final]: [final] runs in the world [body] leaves,
    whether [body] raised or not; what [final] raises wins. *)
Definition try_finally {A : Type} (body : M A) (final : M unit) : M A := λ w,
  let '(r, w1) := body w in
  match final w1 with
  | (Ok _, w2) => (r, w2)
  | (Raise e, w2) => (Raise e, w2)
  end.

(** A call that changes the file system, entered in the journal. *)
Definition call (ev : Event) (op : Effect unit) : M unit := λ w,
  let '(r, fs') := op (fs w) in (r, mkWorld fs' (journal w ++ [ev])).

(** A call that only reads the file system. *)
Definition query {A : Type} (q : FS -> Outcome A) : M A := λ w, (q (fs w), w).

(** An operation of the model of the file system: it goes through, or it
    raises and has changed nothing. *)
Definition local (op : FS -> Outcome FS) : Effect unit := λ fs0,
  match op fs0 with
  | Ok fs' => (Ok tt, fs')
  | Raise e => (Raise e, fs0)
  end.

Definition path_exists (p : Path) : M bool :=
  query (λ fs0, Ok (FileSystem.exists_ fs0 p)).

Definition path_mkdir (p : Path) : M unit :=
  call (EMkdir p) (local (FileSystem.mkdir p)).

Definition shutil_rmtree (p : Path) : M unit :=
  call (ERmtree p) (local (FileSystem.rmtree p)).

Definition logger_info (msg : string) : M unit :=
  call (ELoggerInfo msg) (λ fs0, (Ok tt, fs0)).

Definition logger_debug (msg : string) : M unit :=
  call (ELoggerDebug msg) (λ fs0, (Ok tt, fs0)).

(** ** The module [testdata.py] *)

Module TestData.
Section Program.

Variable E : Platform.

(** [prepare_dst_path] *)
Definition prepare_dst_path (dst_name : string) (dst_dir : option Path) : Path :=
match dst_dir with
| None => Pathlib.parse (gettempdir E) // "geofileops_sampledata" // dst_name
| Some dir => dir // dst_name
end.

(** [list(dir.rglob(f"*{suffix}"))]: the entries below [dir] whose name
ends with [suffix], in the order the platform walks the tree. *)
Definition rglob (dir : Path) (suffix : string) (fs0 : FS) : list Path :=
List.filter
(λ p, bool_decide (dir `prefix_of` p) && bool_decide (p ≠ dir)
      && FileSystem.exists_ fs0 p && Pathlib.match_star suffix p)
(walk E fs0 dir).

(** Lines 133-135: the matches of the three patterns, one pattern after
the other. *)
Definition search_geofiles (unzippedzip_dir : Path) (fs0 : FS) : list Path :=
List.flat_map (λ suffix, rglob unzippedzip_dir suffix fs0)
            [".shp"; ".gpkg"; ".tif"].

(** Lines 139-142: the fatal error of the search. *)
Definition should_find_1_geofile (tmp_paths : list Path) : string :=
"Should find 1 geofile, found " +:+ PyStr.of_nat (length tmp_paths) +:+ ": "
+:+ PyRepr.newline +:+ PyRepr.pformat tmp_paths.

(** Lines 132-142: look for the file in the unzipped archive. *)
Definition look_for_the_file (unzippedzip_dir : Path) : M Path :=
do tmp_paths <- query (λ fs0, Ok (search_geofiles unzippedzip_dir fs0));
if (length tmp_paths =? 1)%nat || (length tmp_paths =? 2)%nat then
match tmp_paths with
| tmp_path :: _ => ret tmp_path
| [] => raise IndexError
end
else
raise (Exception (should_find_1_geofile tmp_paths)).

(** Lines 144-152: move or convert the working file to the destination.
The test [str(dst_path) != str(tmp_path)] is the inequality of the two
paths: pathlib compares pure paths by their [str]. *)
Definition move_or_convert (dst_path tmp_path : Path) : M unit :=
if bool_decide (dst_path ≠ tmp_path) then
if String.eqb (Pathlib.suffix dst_path) (Pathlib.suffix tmp_path) then
  if String.eqb (Pathlib.suffix dst_path) ".tif" then
    call (EShutilMove tmp_path dst_path) (shutil_move E tmp_path dst_path)
  else
    call (EGfoMove tmp_path dst_path) (gfo_move E tmp_path dst_path)
else
  exec logger_info ("Convert tmp file to " +:+ Pathlib.str dst_path);
  call (EGfoMakevalid tmp_path dst_path) (gfo_makevalid E tmp_path dst_path)
else ret tt.

(** Lines 114-122: a fresh scratch directory, and the download into it. *)
Definition download_tmp_data (download_url download_suffix : string)
(dst_path tmp_dir : Path) : M Path :=
(* Remove tmp dir if it exists already *)
do tmp_dir_exists <- path_exists tmp_dir;
exec (if tmp_dir_exists then shutil_rmtree tmp_dir else ret tt);
exec path_mkdir tmp_dir;
(* Download file *)
let tmp_path := tmp_dir // (Pathlib.stem dst_path +:+ PyStr.lower download_suffix) in
exec logger_info ("Download tmp data to " +:+ Pathlib.str tmp_path);
exec call (EUrlretrieve download_url tmp_path) (urlretrieve E download_url tmp_path);
ret tmp_path.

(** Lines 126-130: unzip to a directory next to the destination. *)
Definition unzip (dst_path tmp_path : Path) : M Path :=
let unzippedzip_dir := Pathlib.parent dst_path // Pathlib.stem tmp_path in
exec logger_info ("Unzip to " +:+ Pathlib.str unzippedzip_dir);
exec call (EExtractall tmp_path unzippedzip_dir)
        (zip_extractall E tmp_path unzippedzip_dir);
ret unzippedzip_dir.

(** Lines 114-152: the body of the [try]. *)
Definition unpack_and_convert (download_url download_suffix : string)
(dst_path tmp_dir : Path) : M unit :=
do tmp_path <- download_tmp_data download_url download_suffix dst_path tmp_dir;
(* If the temp file is a .zip file, unzip to dir *)
do tmp_path <-
(if String.eqb (Pathlib.suffix tmp_path) ".zip" then
   do unzippedzip_dir <- unzip dst_path tmp_path;
   look_for_the_file unzippedzip_dir
 else ret tmp_path);
move_or_convert dst_path tmp_path.

(** Lines 154-155: the [finally] clause. *)
Definition cleanup (tmp_dir : Path) : M unit :=
do tmp_dir_exists <- path_exists tmp_dir;
if tmp_dir_exists then shutil_rmtree tmp_dir else ret tt.

(** [download_samplefile] *)
Definition download_samplefile (download_url download_suffix dst_name : string)
(dst_dir : option Path) : M Path :=
let dst_path := prepare_dst_path dst_name dst_dir in
(* If the sample file already exists, return *)
do dst_exists <- path_exists dst_path;
if dst_exists then ret dst_path else
(* Make sure the destination directory exists *)
exec path_mkdir (Pathlib.parent dst_path);
(* If the url points to a file with the same suffix as the dst_path,
 just download *)
if String.eqb (PyStr.lower download_suffix) (PyStr.lower (Pathlib.suffix dst_path)) then
exec logger_info ("Download to " +:+ Pathlib.str dst_path);
exec call (EUrlretrieve download_url dst_path) (urlretrieve E download_url dst_path);
ret dst_path
else
(* The file downloaded is of a different type than the destination
   wanted, so some unpacking and/or converting will be needed. *)
let tmp_dir := Pathlib.parent dst_path // "tmp" in
exec try_finally
       (unpack_and_convert download_url download_suffix dst_path tmp_dir)
       (cleanup tmp_dir);
ret dst_path.

(** The enumeration [TestFile]. *)
Inductive TestFile := AGRIPRC_2018 | AGRIPRC_2019 | S2_NDVI_2020.

Definition value (t : TestFile) : nat :=
match t with AGRIPRC_2018 => 0 | AGRIPRC_2019 => 1 | S2_NDVI_2020 => 2 end.

Definition enum_name (t : TestFile) : string :=
match t with
| AGRIPRC_2018 => "AGRIPRC_2018"
| AGRIPRC_2019 => "AGRIPRC_2019"
| S2_NDVI_2020 => "S2_NDVI_2020"
end.

Definition download_url (t : TestFile) : string :=
match t with
| AGRIPRC_2018 => "https://downloadagiv.blob.core.windows.net/landbouwgebruikspercelen/2018/Landbouwgebruikspercelen_LV_2018_GewVLA_Shape.zip"
| AGRIPRC_2019 => "https://downloadagiv.blob.core.windows.net/landbouwgebruikspercelen/2019/Landbouwgebruikspercelen_LV_2019_GewVLA_Shapefile.zip"
| S2_NDVI_2020 => "https://www.landbouwvlaanderen.be/bestanden/gis/Droogte%202020%20Sentinel2_NDVI_Periodiek_31370_rgb.zip"
end.

Definition download_suffix (t : TestFile) : string := ".zip".

Definition dst_name (t : TestFile) : string :=
match t with
| AGRIPRC_2018 => "agriprc_2018.gpkg"
| AGRIPRC_2019 => "agriprc_2019.gpkg"
| S2_NDVI_2020 => "s2_ndvi_2020.tif"
end.

(** Lines 63-67 of [get_file]: log the feature count of a geofile. *)
Definition log_feature_count (self : TestFile) (testfile_path : Path) : M unit :=
do is_geofile <- query (gfo_is_geofile E testfile_path);
if is_geofile : bool then
do featurecount <- query (gfo_get_layerinfo E testfile_path);
logger_debug ("TestFile " +:+ enum_name self +:+ " contains "
              +:+ PyStr.of_nat featurecount +:+ " rows.")
else ret tt.

(** [TestFile.get_file] *)
Definition get_file (self : TestFile) (tmp_dir : Path) : M Path :=
do testfile_path <- download_samplefile (download_url self) (download_suffix self)
                                      (dst_name self) (Some tmp_dir);
exec log_feature_count self testfile_path;
ret testfile_path.

End Program.
End TestData.

(** ** A reference platform

    One platform on which the routine can be run: every download succeeds
    when the target directory is there, the archive served holds the given
    members, the tree is walked in the order of the map, and moving and
    converting are done on the model of the file system. *)

Module Sim.

Definition ensure_dir (p : Path) (fs0 : FS) : FS :=
  match FileSystem.mkdir p fs0 with
  | Ok fs' => fs'
  | Raise _ => fs0
  end.

Definition write_file (p : Path) (fs0 : FS) : FS :=
  <[p := File]> (ensure_dir (Pathlib.parent p) fs0).

Definition sim_urlretrieve (url : string) (filename : Path) : Effect unit := λ fs0,
  if String.eqb url "" then (Raise (PlatformError "unknown url type"), fs0)
  else if FileSystem.is_dir fs0 (Pathlib.parent filename)
       then (Ok tt, <[filename := File]> fs0)
       else (Raise (FileNotFoundError filename), fs0).

Definition sim_extractall (members : list string) (archive dir : Path) : Effect unit := λ fs0,
  if FileSystem.exists_ fs0 archive
  then (Ok tt, foldr (λ m, write_file (dir // m)) (ensure_dir dir fs0) members)
  else (Raise (FileNotFoundError archive), fs0).

Definition sim_rename (src dst : Path) : Effect unit := λ fs0,
  match fs0 !! src with
  | Some k => (Ok tt, <[dst := k]> (delete src fs0))
  | None => (Raise (FileNotFoundError src), fs0)
  end.

Definition sim_makevalid (src dst : Path) : Effect unit := λ fs0,
  match fs0 !! src with
  | Some _ => (Ok tt, <[dst := File]> fs0)
  | None => (Raise (FileNotFoundError src), fs0)
  end.

Definition sim_is_geofile (p : Path) (fs0 : FS) : Outcome bool :=
  Ok (String.eqb (Pathlib.suffix p) ".gpkg" || String.eqb (Pathlib.suffix p) ".shp").

Definition platform (members : list string) : Platform := {|
  gettempdir := "/tmp";
  urlretrieve := sim_urlretrieve;
  zip_extractall := sim_extractall members;
  walk := λ fs0 _, (map_to_list fs0).*1;
  shutil_move := sim_rename;
  gfo_move := sim_rename;
  gfo_makevalid := sim_makevalid;
  gfo_is_geofile := sim_is_geofile;
  gfo_get_layerinfo := λ _ _, Ok 7%nat
|}.

(** A file system with the directory [/data] and nothing in it. *)
Definition fs_data : FS := {[ ["/"; "data"] := Dir ]}.

Definition start (fs0 : FS) : World := mkWorld fs0 [].

Definition data : Path := ["/"; "data"].

Definition url : string := "http://h/a.zip".

(** The same, with the sample file [a.gpkg] already there. *)
Definition fs_cached : FS := <[ ["/"; "data"; "a.gpkg"] := File ]> fs_data.

(** An archive unzipped by hand: a geopackage and a shapefile. *)
Definition fs_two_formats : FS :=
  <[ ["/"; "data"; "a"; "b.shp"] := File ]>
    (<[ ["/"; "data"; "a"; "a.gpkg"] := File ]>
       (<[ ["/"; "data"; "a"] := Dir ]> fs_data)).

End Sim.

(** ** Points of a run

    The worlds in which a call of [download_samplefile] reaches the steps
    the properties below are about. *)

Section Points.
Import TestData.
Variable E : Platform.
Variables (url download_suffix dst_name : string) (dst_dir : option Path).

Local Abbreviation dst_path := (prepare_dst_path E dst_name dst_dir).
Local Abbreviation tmp_dir := (Pathlib.parent dst_path // "tmp").

(** The call misses the cache, has the destination directory made and
    finds the two suffixes different: from the world [wm] on it runs the
    unpack/convert branch. *)
Definition enters_unpack_convert (w0 wm : World) : Prop :=
  FileSystem.exists_ (fs w0) dst_path = false
  /\ path_mkdir (Pathlib.parent dst_path) w0 = (Ok tt, wm)
  /\ PyStr.lower download_suffix <> PyStr.lower (Pathlib.suffix dst_path).

(** The call has downloaded [tmp_path] into the scratch directory. *)
Definition downloaded (w0 w1 : World) (tmp_path : Path) : Prop :=
  exists wm, enters_unpack_convert w0 wm
  /\ download_tmp_data E url download_suffix dst_path tmp_dir wm = (Ok tmp_path, w1).

(** The call has downloaded a zip archive and extracted it into
    [unzippedzip_dir]. *)
Definition unzipped (w0 w2 : World) (tmp_path unzippedzip_dir : Path) : Prop :=
  exists w1, downloaded w0 w1 tmp_path
  /\ Pathlib.suffix tmp_path = ".zip"
  /\ unzip E dst_path tmp_path w1 = (Ok unzippedzip_dir, w2).

(** The call arrives at line 144 with the working file [tmp_path]: the
    downloaded file itself, or the file selected in the unzipped archive. *)
Definition working_file (w0 w3 : World) (tmp_path : Path) : Prop :=
  (downloaded w0 w3 tmp_path /\ Pathlib.suffix tmp_path <> ".zip")
  \/ (exists w2 zip_path unzippedzip_dir,
        unzipped w0 w2 zip_path unzippedzip_dir
        /\ look_for_the_file E unzippedzip_dir w2 = (Ok tmp_path, w3)).

(** The worlds of these points, by running the call up to them. *)
Definition world_entered (w0 : World) : World :=
  (path_mkdir (Pathlib.parent dst_path) w0).2.

Definition world_downloaded (w0 : World) : World :=
  (download_tmp_data E url download_suffix dst_path tmp_dir (world_entered w0)).2.

Definition world_unzipped (w0 : World) : World :=
  (unzip E dst_path
         (tmp_dir // (Pathlib.stem dst_path +:+ PyStr.lower download_suffix))
         (world_downloaded w0)).2.

End Points.

(** The rank of a file in the order of the search: [.shp] first, then
    [.gpkg], then [.tif]. *)
Definition format_rank (p : Path) : nat :=
  if Pathlib.match_star ".shp" p then 0
  else if Pathlib.match_star ".gpkg" p then 1
  else if Pathlib.match_star ".tif" p then 2
  else 3.

(** A plain file name: one path component. *)
Definition is_file_name (s : string) : bool :=
  negb (String.eqb s "") && negb (String.eqb s ".") && negb (PyRepr.has_char "/" s).



(** The entries of the journal that are network input or output. *)
Definition is_network_io (ev : Event) : bool :=
  match ev with
  | EUrlretrieve _ _ => true
  | _ => false
  end.

(** ** What a call issues, and the shape of the file system *)

(** [m] adds to the journal only operations that satisfy [P], at most [n]
    of them network accesses. *)
Definition issues {A : Type} (P : Event -> Prop) (n : nat) (m : M A) : Prop :=
  forall (w w' : World) (r : Outcome A),
    m w = (r, w') ->
    exists new : list Event,
      journal w' = journal w ++ new
      /\ Forall P new
      /\ length (List.filter is_network_io new) <= n.

Section Permitted.
Variable E : Platform.
Variables (url download_suffix dst_name : string) (dst_dir : option Path).

(** The operations of one call of [download_samplefile], by their targets:
    the destination directory and the scratch directory are made, the
    scratch directory is removed, the url is retrieved to the destination or
    to the file in the scratch directory, that file is unzipped next to the
    destination, and what is moved or converted goes to the destination. *)
Definition permitted (ev : Event) : Prop :=
  let dst_path := TestData.prepare_dst_path E dst_name dst_dir in
  let tmp_dir := Pathlib.parent dst_path // "tmp" in
  let tmp_path := tmp_dir // (Pathlib.stem dst_path +:+ PyStr.lower download_suffix) in
  match ev with
  | EMkdir p => p = Pathlib.parent dst_path \/ p = tmp_dir
  | ERmtree p => p = tmp_dir
  | EUrlretrieve u filename => u = url /\ (filename = dst_path \/ filename = tmp_path)
  | EExtractall archive dir =>
      archive = tmp_path /\ dir = Pathlib.parent dst_path // Pathlib.stem tmp_path
  | EShutilMove _ dst | EGfoMove _ dst | EGfoMakevalid _ dst => dst = dst_path
  | ELoggerInfo _ => True
  | ELoggerDebug _ => False
  end.

End Permitted.



(** More file systems for the reference platform. *)
Module SimCases.



End SimCases.

(** Running a call on a given platform and world, to establish the points
    of the run. *)
Ltac run := vm_compute; first [reflexivity | discriminate | congruence].

Ltac enters := split; [run | split; run].

Ltac downloaded_here :=
  match goal with
  | |- downloaded ?P ?u ?s ?n ?d ?w0 _ _ =>
      exists (world_entered P n d w0); split; [enters | run]
  end.

Ltac unzipped_here :=
  match goal with
  | |- unzipped ?P ?u ?s ?n ?d ?w0 _ _ _ =>
      exists (world_downloaded P u s n d w0); split; [downloaded_here | split; run]
  end.

(** * Properties *)

(** ** Running computations *)

Section MonadFacts.
Context {A B : Type}.

Lemma bind_ok (m : M A) (k : A -> M B) w a w' :
  m w = (Ok a, w') -> bind m k w = k a w'.
Proof. unfold bind. now intros ->. Qed.

Lemma bind_raise (m : M A) (k : A -> M B) w e w' :
  m w = (Raise e, w') -> bind m k w = (Raise e, w').
Proof. unfold bind. now intros ->. Qed.

Lemma try_finally_run (body : M A) (final : M unit) w r w1 rf w2 :
  body w = (r, w1) -> final w1 = (rf, w2) ->
  try_finally body final w
  = (match rf with Ok _ => r | Raise e => Raise e end, w2).
Proof. unfold try_finally. intros -> ->. now destruct rf. Qed.
End MonadFacts.

(** ** Paths and the file system *)

Section FileSystemFacts.
Implicit Types p q : Path.

Lemma join_tmp p : p // "tmp" = p ++ ["tmp"].
Proof. reflexivity. Qed.

Lemma snoc_not_root p c :
  Pathlib.is_anchor c = false -> Pathlib.is_root (p ++ [c]) = false.
Proof. intros Hc. destruct p as [|a [|b p]]; simpl; auto. Qed.

Lemma node_tmp (fs0 : FS) p :
  FileSystem.node fs0 (p // "tmp") = fs0 !! (p ++ ["tmp"]).
Proof.
  rewrite join_tmp. unfold FileSystem.node.
  now rewrite snoc_not_root.
Qed.



Lemma rmtree_is_dir p (fs0 fs1 : FS) :
  FileSystem.rmtree p fs0 = Ok fs1 -> FileSystem.is_dir fs0 p = true.
Proof.
  unfold FileSystem.rmtree, FileSystem.is_dir.
  now destruct (FileSystem.node fs0 p) as [[|]|].
Qed.


(** [os.mkdir] and [mkdir] change nothing but [p] and the paths above it. *)
Lemma os_mkdir_frame p (fs0 fs1 : FS) q :
  FileSystem.os_mkdir p fs0 = Ok fs1 -> q <> p -> fs1 !! q = fs0 !! q.
Proof.
  unfold FileSystem.os_mkdir.
  destruct (FileSystem.node fs0 (Pathlib.parent p)) as [[|]|]; try discriminate.
  destruct (FileSystem.node fs0 p); try discriminate.
  intros [= <-] Hq. now rewrite lookup_insert_ne.
Qed.

Lemma mkdir_exist_ok_frame p (fs0 fs1 : FS) q :
  FileSystem.mkdir_exist_ok p fs0 = Ok fs1 -> q <> p -> fs1 !! q = fs0 !! q.
Proof.
  unfold FileSystem.mkdir_exist_ok.
  destruct (FileSystem.os_mkdir p fs0) as [fs2|e] eqn:Hos.
  - intros [= <-]. now apply os_mkdir_frame.
  - destruct e; try discriminate;
      destruct (FileSystem.is_dir fs0 p); try discriminate; now intros [= <-].
Qed.

Lemma parent_prefix p : Pathlib.parent p `prefix_of` p.
Proof.
  unfold Pathlib.parent. destruct (Pathlib.is_root p) eqn:Hr; [reflexivity|].
  destruct (decide (p = [])) as [->|Hne]; [discriminate|].
  exists [List.last p ""]. now apply app_removelast_last.
Qed.

Lemma mkdir_parents_frame (n : nat) p (fs0 fs1 : FS) q :
  FileSystem.mkdir_parents n p fs0 = Ok fs1 ->
  ¬ q `prefix_of` p -> fs1 !! q = fs0 !! q.
Proof.
  revert p fs0 fs1. induction n as [|n IH]; intros p fs0 fs1; simpl.
  - destruct (FileSystem.os_mkdir p fs0) as [fs2|e] eqn:Hos.
    + intros [= <-] Hq. eapply os_mkdir_frame; [eassumption|].
      intros ->. now apply Hq.
    + destruct e; try discriminate;
        destruct (FileSystem.is_dir fs0 p); try discriminate; now intros [= <-].
  - destruct (FileSystem.os_mkdir p fs0) as [fs2|e] eqn:Hos.
    + intros [= <-] Hq. eapply os_mkdir_frame; [eassumption|].
      intros ->. now apply Hq.
    + destruct e;
        try (destruct (FileSystem.is_dir fs0 p); try discriminate; now intros [= <-]).
      destruct (FileSystem.mkdir_parents n (Pathlib.parent p) fs0) as [fs2|e] eqn:Hrec;
        try discriminate.
      intros Hme Hq.
      rewrite (mkdir_exist_ok_frame _ _ _ _ Hme) by (intros ->; now apply Hq).
      eapply IH; [eassumption|].
      intros Hpre. apply Hq. etrans; [exact Hpre | apply parent_prefix].
Qed.

Lemma mkdir_frame p (fs0 fs1 : FS) q :
  FileSystem.mkdir p fs0 = Ok fs1 -> ¬ q `prefix_of` p -> fs1 !! q = fs0 !! q.
Proof. apply mkdir_parents_frame. Qed.

(** The depth given to [mkdir_parents] is never used up: a missing parent
    is reported for paths that have one. *)
Lemma os_mkdir_missing_parent p (fs0 : FS) q :
  FileSystem.os_mkdir p fs0 = Raise (FileNotFoundError q) ->
  Pathlib.is_root p = false /\ length (Pathlib.parent p) < length p.
Proof.
  unfold FileSystem.os_mkdir, FileSystem.node, Pathlib.parent.
  destruct (Pathlib.is_root p) eqn:Hr.
  - rewrite Hr. discriminate.
  - intros _. split; [reflexivity|].
    destruct (decide (p = [])) as [->|Hne]; [discriminate|].
    rewrite (app_removelast_last "" Hne) at 2.
    rewrite length_app. simpl. lia.
Qed.

Lemma mkdir_parents_enough (n m : nat) p (fs0 : FS) :
  length p <= n -> length p <= m ->
  FileSystem.mkdir_parents n p fs0 = FileSystem.mkdir_parents m p fs0.
Proof.
  revert m p. induction n as [|n IH]; intros [|m] p Hn Hm; simpl;
    try reflexivity;
    destruct (FileSystem.os_mkdir p fs0) as [|e] eqn:Hos; try reflexivity;
    destruct e; try reflexivity;
    apply os_mkdir_missing_parent in Hos as [_ Hlt]; try lia.
  rewrite (IH m (Pathlib.parent p)) by lia. reflexivity.
Qed.

Lemma mkdir_fuel (n : nat) p (fs0 : FS) :
  length p <= n -> FileSystem.mkdir_parents n p fs0 = FileSystem.mkdir p fs0.
Proof. intros Hn. now apply mkdir_parents_enough. Qed.

End FileSystemFacts.

(** ** The clean-up *)

Section Cleanup.
Variable E : Platform.


End Cleanup.

(** ** [download_samplefile]: cache hit and direct download *)

Section Routine.
Import TestData.
Variable E : Platform.
Variables (url download_suffix dst_name : string) (dst_dir : option Path).

Local Abbreviation dst_path := (prepare_dst_path E dst_name dst_dir).
Local Abbreviation tmp_dir := (Pathlib.parent dst_path // "tmp").
Local Abbreviation download := (download_samplefile E url download_suffix dst_name dst_dir).

Lemma download_cached (w : World) :
  FileSystem.exists_ (fs w) dst_path = true -> download w = (Ok dst_path, w).
Proof.
  intros Hex. unfold download_samplefile, bind, path_exists, query.
  now rewrite Hex.
Qed.

Lemma download_unpack_convert (w0 wm : World) :
  enters_unpack_convert E download_suffix dst_name dst_dir w0 wm ->
  download w0
  = bind (try_finally (unpack_and_convert E url download_suffix dst_path tmp_dir)
                      (cleanup tmp_dir))
         (λ _, ret dst_path) wm.
Proof.
  intros (Hex & Hmk & Hsuf).
  unfold download_samplefile, path_exists, query.
  unfold bind at 1. rewrite Hex.
  rewrite (bind_ok _ _ _ _ _ Hmk).
  apply String.eqb_neq in Hsuf. now rewrite Hsuf.
Qed.

(** Whatever the call returns is the destination path. *)
Lemma download_returns (w0 w1 : World) (p : Path) :
  download w0 = (Ok p, w1) -> p = dst_path.
Proof.
  unfold download_samplefile, path_exists, query. unfold bind at 1.
  destruct (FileSystem.exists_ (fs w0) dst_path).
  { unfold ret. now intros [= <- _]. }
  unfold bind at 1.
  destruct (path_mkdir (Pathlib.parent dst_path) w0) as [[[]|e] wm]; [|discriminate].
  destruct (String.eqb _ _).
  - unfold bind at 1.
    destruct (logger_info _ wm) as [[[]|e] wl]; [|discriminate].
    unfold bind at 1.
    destruct (call _ _ wl) as [[[]|e] wu]; [|discriminate].
    unfold ret. now intros [= <- _].
  - unfold bind at 1.
    destruct (try_finally _ _ wm) as [[[]|e] wf]; [|discriminate].
    unfold ret. now intros [= <- _].
Qed.

End Routine.

Section CacheHit.
Import TestData.
Variable E : Platform.

(** Logging the feature count reads the file system and writes one debug
    line: it depends on the file system only, and leaves it as it was. *)
Lemma log_feature_count_spec (self : TestFile) (p : Path) (w w' : World)
    (r : Outcome unit) :
  log_feature_count E self p w = (r, w') ->
  fs w' = fs w
  /\ List.filter is_network_io (journal w') = List.filter is_network_io (journal w)
  /\ forall v : World, fs v = fs w ->
       exists v', log_feature_count E self p v = (r, v')
         /\ fs v' = fs v
         /\ List.filter is_network_io (journal v')
            = List.filter is_network_io (journal v).
Proof.
  unfold log_feature_count, query, bind, logger_debug, call, ret.
  destruct (gfo_is_geofile E p (fs w)) as [[|]|e] eqn:Hgeo.
  - destruct (gfo_get_layerinfo E p (fs w)) as [n|e] eqn:Hinfo;
      intros [= <- <-]; simpl.
    + split; [reflexivity|]. split.
      { rewrite List.filter_app. apply app_nil_r. }
      intros v Hv. rewrite Hv, Hgeo. cbv beta iota. rewrite Hv, Hinfo.
      eexists. split; [reflexivity|].
      simpl. split; [congruence|].
      rewrite List.filter_app. apply app_nil_r.
    + repeat split. intros v Hv. rewrite Hv, Hgeo. cbv beta iota.
      rewrite Hv, Hinfo. eexists. repeat split; congruence.
  - intros [= <- <-]. repeat split.
    intros v Hv. rewrite Hv, Hgeo. eexists. repeat split; congruence.
  - intros [= <- <-]. repeat split.
    intros v Hv. rewrite Hv, Hgeo. eexists. repeat split; congruence.
Qed.

(** C1.  When the destination path already exists, [download_samplefile]
    returns it at once and leaves the world as it found it: no download,
    no directory made, nothing extracted, nothing converted, no line
    logged.  Hence of two consecutive calls with the same arguments, the
    second returns the path the first returned and issues nothing, as soon
    as the first has left the destination in place; and a second
    [get_file] returns the same path, does not change the file system and
    adds to the journal no network access. *)
Theorem cache_hit_returns_immediately
    (url download_suffix dst_name : string) (dst_dir : option Path) :
  let dst_path := prepare_dst_path E dst_name dst_dir in
  let download := download_samplefile E url download_suffix dst_name dst_dir in
  (forall w : World,
      FileSystem.exists_ (fs w) dst_path = true ->
      download w = (Ok dst_path, w))
  /\ (forall (w0 w1 : World) (p : Path),
        download w0 = (Ok p, w1) ->
        p = dst_path
        /\ (FileSystem.exists_ (fs w1) dst_path = true -> download w1 = (Ok p, w1)))
  /\ (forall (self : TestFile) (dir : Path) (w0 w1 : World) (p : Path),
        get_file E self dir w0 = (Ok p, w1) ->
        FileSystem.exists_ (fs w1) p = true ->
        exists w2, get_file E self dir w1 = (Ok p, w2)
          /\ fs w2 = fs w1
          /\ List.filter is_network_io (journal w2)
             = List.filter is_network_io (journal w1)).
Proof.
  intros dst_path download. split; [apply download_cached|]. split.
  - intros w0 w1 p Hrun. pose proof (download_returns _ _ _ _ _ _ _ _ Hrun) as ->.
    split; [reflexivity|]. apply download_cached.
  - intros self dir w0 w1 p. unfold get_file. unfold bind at 1.
    destruct (download_samplefile _ _ _ _ _ w0) as [[p0|e] wd] eqn:Hd; [|discriminate].
    unfold bind at 1.
    destruct (log_feature_count E self p0 wd) as [[[]|e] wl] eqn:Hlog; [|discriminate].
    unfold ret. intros [= <- <-] Hex.
    pose proof (download_returns _ _ _ _ _ _ _ _ Hd) as ->.
    destruct (log_feature_count_spec _ _ _ _ _ Hlog) as (Hfs & _ & Hagain).
    destruct (Hagain wl Hfs) as (v' & Hv & Hfsv & Hnet).
    exists v'. split; [|split; assumption].
    rewrite (bind_ok _ _ _ _ _ (download_cached _ _ _ _ _ _ Hex)).
    now rewrite (bind_ok _ _ _ _ _ Hv).
Qed.

End CacheHit.


(** ** The scratch directory *)

Section Scratch.
Import TestData.
Variable E : Platform.
Variables (url download_suffix dst_name : string) (dst_dir : option Path).

Local Abbreviation dst_path := (prepare_dst_path E dst_name dst_dir).
Local Abbreviation tmp_dir := (Pathlib.parent dst_path // "tmp").
Local Abbreviation download := (download_samplefile E url download_suffix dst_name dst_dir).


(** How a call that runs the unpack/convert branch ends: the body of the
    [try] leaves a world, the clean-up runs in it, and the error of the
    clean-up, if any, is the one raised. *)
Lemma download_ends (w0 wm w3 w4 : World) (r3 rc : Outcome unit) :
  enters_unpack_convert E download_suffix dst_name dst_dir w0 wm ->
  unpack_and_convert E url download_suffix dst_path tmp_dir wm = (r3, w3) ->
  cleanup tmp_dir w3 = (rc, w4) ->
  download w0
  = (match rc, r3 with
     | Raise e, _ => Raise e
     | Ok _, Raise e => Raise e
     | Ok _, Ok _ => Ok dst_path
     end, w4).
Proof.
  intros Hin Hbody Hclean. rewrite (download_unpack_convert _ _ _ _ _ _ _ Hin).
  unfold bind. rewrite (try_finally_run _ _ _ _ _ _ _ Hbody Hclean).
  destruct rc as [[]|e]; [|reflexivity]. now destruct r3 as [[]|e].
Qed.


(** C4.  When the source suffix and the suffix of the destination are the
    same up to case and the destination does not exist yet, the call makes
    the destination directory and, if that went through, downloads straight
    to the destination path and returns it (the error of the download, if
    it fails).  These are all the operations it issues: the scratch
    directory is never made, and making the destination directory leaves
    the path of the scratch directory as it was. *)
Theorem direct_download_skips_scratch (w0 : World) :
  FileSystem.exists_ (fs w0) dst_path = false ->
  PyStr.lower download_suffix = PyStr.lower (Pathlib.suffix dst_path) ->
  match FileSystem.mkdir (Pathlib.parent dst_path) (fs w0) with
  | Raise e =>
      download w0
      = (Raise e, mkWorld (fs w0) (journal w0 ++ [EMkdir (Pathlib.parent dst_path)]))
  | Ok fs1 =>
      let issued := [EMkdir (Pathlib.parent dst_path);
                     ELoggerInfo ("Download to " +:+ Pathlib.str dst_path);
                     EUrlretrieve url dst_path] in
      download w0
      = (match (urlretrieve E url dst_path fs1).1 with
         | Ok _ => Ok dst_path
         | Raise e => Raise e
         end,
         mkWorld (urlretrieve E url dst_path fs1).2 (journal w0 ++ issued))
      /\ (EMkdir tmp_dir ∉ issued)
      /\ FileSystem.node fs1 tmp_dir = FileSystem.node (fs w0) tmp_dir
  end.
Proof.
  intros Hex Hsuf. apply String.eqb_eq in Hsuf.
  assert (download w0
          = bind (path_mkdir (Pathlib.parent dst_path)) (λ _,
              bind (logger_info ("Download to " +:+ Pathlib.str dst_path)) (λ _,
                bind (call (EUrlretrieve url dst_path) (urlretrieve E url dst_path))
                     (λ _, ret dst_path))) w0) as ->.
  { unfold download_samplefile, path_exists, query. unfold bind at 1.
    now rewrite Hex, Hsuf. }
  unfold path_mkdir, call, local, logger_info, bind, ret.
  destruct (FileSystem.mkdir (Pathlib.parent dst_path) (fs w0)) as [fs1|e] eqn:Hmk;
    [|reflexivity].
  simpl. split; [|split].
  - destruct (urlretrieve E url dst_path fs1) as [[[]|e] fs2]; simpl;
      now rewrite <- !app_assoc.
  - rewrite !elem_of_cons, elem_of_nil. intros [H|[H|[H|[]]]]; try discriminate.
    injection H as H. rewrite join_tmp in H.
    apply (f_equal length) in H. rewrite length_app in H. simpl in H. lia.
  - rewrite !node_tmp. apply (mkdir_frame _ _ _ _ Hmk).
    apply prefix_snoc_not.
Qed.

End Scratch.

(** ** File names and joins *)

Section PathFacts.
Implicit Types p : Path.

Lemma split_no_sep (s : string) :
  PyRepr.has_char "/" s = false -> PyStr.split "/" s = [s].
Proof.
  induction s as [|a s IH]; simpl; [reflexivity|].
  intros H. apply orb_false_elim in H as [Ha Hs].
  rewrite Ha, (IH Hs). reflexivity.
Qed.

Lemma prefix_head (a b : ascii) (s1 s2 : string) :
  String.prefix (String a s1) (String b s2)
  = if Ascii.eqb a b then String.prefix s1 s2 else false.
Proof.
  change (String.prefix (String a s1) (String b s2))
    with (match ascii_dec a b with
          | left _ => String.prefix s1 s2
          | right _ => false
          end).
  destruct (ascii_dec a b) as [->|Hne].
  - now rewrite Ascii.eqb_refl.
  - apply Ascii.eqb_neq in Hne. now rewrite Hne.
Qed.

Lemma root_of_no_sep (s : string) :
  PyRepr.has_char "/" s = false -> Pathlib.root_of s = "".
Proof.
  destruct s as [|a s]; [reflexivity|].
  intros H. apply orb_false_elim in H as [Ha _].
  rewrite Ascii.eqb_sym in Ha.
  unfold Pathlib.root_of, PyStr.startswith.
  now rewrite !prefix_head, Ha.
Qed.

Lemma file_name_no_anchor (s : string) :
  PyRepr.has_char "/" s = false -> Pathlib.is_anchor s = false.
Proof.
  intros H. unfold Pathlib.is_anchor.
  destruct (String.eqb_spec s "/") as [->|_]; [discriminate|].
  destruct (String.eqb_spec s "//") as [->|_]; [discriminate|reflexivity].
Qed.

(** A plain file name is one component. *)
Lemma parse_file_name (s : string) :
  is_file_name s = true -> Pathlib.parse s = [s].
Proof.
  unfold is_file_name. rewrite !andb_true_iff, !negb_true_iff.
  intros [[He Hd] Hs]. unfold Pathlib.parse, Pathlib.components.
  rewrite (root_of_no_sep _ Hs), (split_no_sep _ Hs). simpl.
  unfold Pathlib.keep_component. now rewrite He, Hd.
Qed.

Lemma join_file_name p (s : string) :
  is_file_name s = true -> p // s = p ++ [s].
Proof.
  intros H. unfold Pathlib.joinpath. rewrite (parse_file_name _ H). simpl.
  unfold is_file_name in H. rewrite !andb_true_iff, !negb_true_iff in H.
  destruct H as [_ Hs]. now rewrite (file_name_no_anchor _ Hs).
Qed.

Lemma name_join_file_name p (s : string) :
  is_file_name s = true -> Pathlib.name (p // s) = s.
Proof.
  intros H. rewrite (join_file_name _ _ H). unfold Pathlib.name.
  unfold is_file_name in H. rewrite !andb_true_iff, !negb_true_iff in H.
  destruct H as [_ Hs].
  rewrite (snoc_not_root _ _ (file_name_no_anchor _ Hs)). apply last_last.
Qed.

Lemma parent_join_file_name p (s : string) :
  is_file_name s = true -> Pathlib.parent (p // s) = p.
Proof.
  intros H. rewrite (join_file_name _ _ H). unfold Pathlib.parent.
  unfold is_file_name in H. rewrite !andb_true_iff, !negb_true_iff in H.
  destruct H as [_ Hs].
  rewrite (snoc_not_root _ _ (file_name_no_anchor _ Hs)). apply removelast_last.
Qed.

End PathFacts.

(** ** [prepare_dst_path] *)

Section PrepareDstPath.
Import TestData.
Variable E : Platform.


End PrepareDstPath.

(** ** The search in the unzipped archive *)

Section Search.
Import TestData.
Variable E : Platform.

Lemma look_for_the_file_run (dir : Path) (w : World) :
  look_for_the_file E dir w
  = (match search_geofiles E dir (fs w) with
     | [tmp_path] | [tmp_path; _] => Ok tmp_path
     | tmp_paths => Raise (Exception (should_find_1_geofile tmp_paths))
     end, w).
Proof.
  unfold look_for_the_file, bind, query.
  now destruct (search_geofiles E dir (fs w)) as [|p [|q [|r l]]].
Qed.

Lemma search_geofiles_groups (dir : Path) (fs0 : FS) :
  search_geofiles E dir fs0
  = rglob E dir ".shp" fs0 ++ rglob E dir ".gpkg" fs0 ++ rglob E dir ".tif" fs0.
Proof. unfold search_geofiles. simpl. now rewrite app_nil_r. Qed.

Lemma rglob_matches (dir : Path) (suffix : string) (fs0 : FS) :
  Forall (λ p, Pathlib.match_star suffix p = true) (rglob E dir suffix fs0).
Proof.
  apply List.Forall_forall. intros p Hp. unfold rglob in Hp.
  apply List.filter_In in Hp as [_ Hp].
  now apply andb_true_iff in Hp as [_ Hp].
Qed.

Lemma rglob_below (dir : Path) (suffix : string) (fs0 : FS) :
  Forall (λ p, dir `prefix_of` p /\ p <> dir) (rglob E dir suffix fs0).
Proof.
  apply List.Forall_forall. intros p Hp. unfold rglob in Hp.
  apply List.filter_In in Hp as [_ Hp].
  rewrite !andb_true_iff, !bool_decide_eq_true in Hp. tauto.
Qed.

(** A name ends with at most one of the three suffixes. *)
Lemma rank_shp (p : Path) : Pathlib.match_star ".shp" p = true -> format_rank p = 0.
Proof. unfold format_rank. now intros ->. Qed.

Lemma rank_gpkg (p : Path) : Pathlib.match_star ".gpkg" p = true -> format_rank p = 1.
Proof.
  unfold format_rank, Pathlib.match_star, PyStr.endswith.
  change (String.rev ".gpkg") with "gkpg.". change (String.rev ".shp") with "phs.".
  destruct (String.rev (Pathlib.name p)) as [|c r]; [discriminate|].
  rewrite !prefix_head.
  destruct (Ascii.eqb_spec "g" c) as [<-|_]; [|discriminate].
  now intros ->.
Qed.

Lemma rank_tif (p : Path) : Pathlib.match_star ".tif" p = true -> format_rank p = 2.
Proof.
  unfold format_rank, Pathlib.match_star, PyStr.endswith.
  change (String.rev ".gpkg") with "gkpg.". change (String.rev ".shp") with "phs.".
  change (String.rev ".tif") with "fit.".
  destruct (String.rev (Pathlib.name p)) as [|c r]; [discriminate|].
  rewrite !prefix_head.
  destruct (Ascii.eqb_spec "f" c) as [<-|_]; [|discriminate].
  now intros ->.
Qed.

Lemma rank_zero (p : Path) : format_rank p = 0 -> Pathlib.match_star ".shp" p = true.
Proof.
  unfold format_rank. destruct (Pathlib.match_star ".shp" p); [reflexivity|].
  destruct (Pathlib.match_star ".gpkg" p); [discriminate|].
  now destruct (Pathlib.match_star ".tif" p).
Qed.

(** C9.  The search collects the matches of [*.shp], then those of
    [*.gpkg], then those of [*.tif]: three groups, of rank 0, 1 and 2.  So
    the working file, the first of an accepted list, is of the earliest
    format present: no match has a smaller rank, and it is a [.shp] as
    soon as one [.shp] was found. *)
Theorem search_order_shp_gpkg_tif (dir : Path) (w : World) :
  let found := search_geofiles E dir (fs w) in
  found = rglob E dir ".shp" (fs w) ++ rglob E dir ".gpkg" (fs w)
          ++ rglob E dir ".tif" (fs w)
  /\ Forall (λ p, format_rank p = 0) (rglob E dir ".shp" (fs w))
  /\ Forall (λ p, format_rank p = 1) (rglob E dir ".gpkg" (fs w))
  /\ Forall (λ p, format_rank p = 2) (rglob E dir ".tif" (fs w))
  /\ forall (first : Path) (w' : World),
       look_for_the_file E dir w = (Ok first, w') ->
       (exists rest, found = first :: rest)
       /\ (forall q, q ∈ found -> format_rank first <= format_rank q)
       /\ (forall q, q ∈ found -> Pathlib.match_star ".shp" q = true ->
                     Pathlib.match_star ".shp" first = true).
Proof.
  intros found.
  assert (Forall (λ p, format_rank p = 0) (rglob E dir ".shp" (fs w))) as H0.
  { eapply Forall_impl; [apply rglob_matches|]. apply rank_shp. }
  assert (Forall (λ p, format_rank p = 1) (rglob E dir ".gpkg" (fs w))) as H1.
  { eapply Forall_impl; [apply rglob_matches|]. apply rank_gpkg. }
  assert (Forall (λ p, format_rank p = 2) (rglob E dir ".tif" (fs w))) as H2.
  { eapply Forall_impl; [apply rglob_matches|]. apply rank_tif. }
  split; [apply search_geofiles_groups|]. repeat (split; [assumption|]).
  intros first w' Hrun. rewrite look_for_the_file_run in Hrun.
  assert (exists rest, found = first :: rest) as [rest Hfound].
  { subst found. destruct (search_geofiles E dir (fs w)) as [|p [|q [|r l]]];
      try discriminate; injection Hrun as <- _; eauto. }
  assert (forall q, q ∈ found -> format_rank first <= format_rank q) as Hmin.
  { subst found. rewrite search_geofiles_groups in Hfound |- *.
    intros q Hq.
    destruct (rglob E dir ".shp" (fs w)) as [|a l0].
    - destruct (rglob E dir ".gpkg" (fs w)) as [|b l1].
      + simpl in Hfound, Hq. rewrite Forall_forall in H2.
        rewrite (H2 first) by (rewrite Hfound; left).
        rewrite (H2 q) by assumption. lia.
      + simpl in Hfound. injection Hfound as <- _.
        rewrite Forall_forall in H1, H2.
        rewrite (H1 b) by left.
        change (q ∈ (b :: l1) ++ rglob E dir ".tif" (fs w)) in Hq.
        apply elem_of_app in Hq as [Hq|Hq];
          [rewrite (H1 q Hq) | rewrite (H2 q Hq)]; lia.
    - simpl in Hfound. injection Hfound as <- _.
      rewrite Forall_forall in H0. rewrite (H0 a) by left. lia. }
  split; [eauto|]. split; [assumption|].
  intros q Hq Hshp. apply rank_zero.
  specialize (Hmin q Hq). rewrite (rank_shp _ Hshp) in Hmin. lia.
Qed.

End Search.

(** ** The unpack/convert branch, step by step *)

Section UnpackConvert.
Import TestData.
Variable E : Platform.
Variables (url download_suffix dst_name : string) (dst_dir : option Path).

Local Abbreviation dst_path := (prepare_dst_path E dst_name dst_dir).
Local Abbreviation tmp_dir := (Pathlib.parent dst_path // "tmp").
Local Abbreviation download := (download_samplefile E url download_suffix dst_name dst_dir).
Local Abbreviation body := (unpack_and_convert E url download_suffix dst_path tmp_dir).
Local Abbreviation downloaded := (downloaded E url download_suffix dst_name dst_dir).
Local Abbreviation unzipped := (unzipped E url download_suffix dst_name dst_dir).
Local Abbreviation working_file := (working_file E url download_suffix dst_name dst_dir).

(** The download into the scratch directory: where it goes, and that it
    is the last thing done. *)
Lemma download_tmp_data_run (dst tmp : Path) (wm w1 : World) (tmp_path : Path) :
  download_tmp_data E url download_suffix dst tmp wm = (Ok tmp_path, w1) ->
  tmp_path = tmp // (Pathlib.stem dst +:+ PyStr.lower download_suffix)
  /\ last (journal w1) = Some (EUrlretrieve url tmp_path).
Proof.
  unfold download_tmp_data. unfold bind at 1.
  destruct (path_exists tmp wm) as [[b|e] wa]; [|discriminate].
  unfold bind at 1.
  destruct ((if b then shutil_rmtree tmp else ret tt) wa) as [[[]|e] wb]; [|discriminate].
  unfold bind at 1.
  destruct (path_mkdir tmp wb) as [[[]|e] wc]; [|discriminate].
  unfold bind at 1.
  destruct (logger_info _ wc) as [[[]|e] wd]; [|discriminate].
  unfold bind, call, ret.
  destruct (urlretrieve E url _ (fs wd)) as [[[]|e] fs1]; [|discriminate].
  intros [= <- <-]. split; [reflexivity|]. simpl. apply last_snoc.
Qed.

Lemma unzip_run (dst zip : Path) (w1 w2 : World) (dir : Path) :
  unzip E dst zip w1 = (Ok dir, w2) ->
  dir = Pathlib.parent dst // Pathlib.stem zip
  /\ last (journal w2) = Some (EExtractall zip dir).
Proof.
  unfold unzip, logger_info, bind, call, ret.
  destruct (zip_extractall E zip _ _) as [[[]|e] fs1]; [|discriminate].
  intros [= <- <-]. split; [reflexivity|]. simpl. apply last_snoc.
Qed.

(** From the points of a run to the rest of the body of the [try]. *)
Lemma body_downloaded (wm w1 : World) (tmp_path : Path) :
  download_tmp_data E url download_suffix dst_path tmp_dir wm = (Ok tmp_path, w1) ->
  body wm
  = bind (if String.eqb (Pathlib.suffix tmp_path) ".zip"
          then bind (unzip E dst_path tmp_path) (look_for_the_file E)
          else ret tmp_path)
         (move_or_convert E dst_path) w1.
Proof. intros H. unfold unpack_and_convert. now rewrite (bind_ok _ _ _ _ _ H). Qed.

Lemma body_unzipped (w0 w2 : World) (zip dir : Path) :
  unzipped w0 w2 zip dir ->
  exists wm, enters_unpack_convert E download_suffix dst_name dst_dir w0 wm
    /\ body wm = bind (look_for_the_file E dir) (move_or_convert E dst_path) w2.
Proof.
  intros (w1 & (wm & Hin & Hd) & Hzip & Hun). exists wm. split; [assumption|].
  rewrite (body_downloaded _ _ _ Hd). apply String.eqb_eq in Hzip. rewrite Hzip.
  unfold bind at 1. unfold bind at 1. now rewrite Hun.
Qed.

Lemma body_working_file (w0 w3 : World) (tmp_path : Path) :
  working_file w0 w3 tmp_path ->
  exists wm, enters_unpack_convert E download_suffix dst_name dst_dir w0 wm
    /\ body wm = move_or_convert E dst_path tmp_path w3.
Proof.
  intros [[(wm & Hin & Hd) Hzip]|(w2 & zip & dir & Hun & Hlook)].
  - exists wm. split; [assumption|].
    rewrite (body_downloaded _ _ _ Hd). apply String.eqb_neq in Hzip. rewrite Hzip.
    reflexivity.
  - destruct (body_unzipped _ _ _ _ Hun) as (wm & Hin & Hbody).
    exists wm. split; [assumption|]. rewrite Hbody.
    now rewrite (bind_ok _ _ _ _ _ Hlook).
Qed.

(** The points of a run are determined by the world the call starts in. *)
Lemma enters_functional (w0 wm wm' : World) :
  enters_unpack_convert E download_suffix dst_name dst_dir w0 wm ->
  enters_unpack_convert E download_suffix dst_name dst_dir w0 wm' -> wm = wm'.
Proof. intros (_ & H & _) (_ & H' & _). congruence. Qed.

Lemma downloaded_functional (w0 w1 w1' : World) (t t' : Path) :
  downloaded w0 w1 t -> downloaded w0 w1' t' -> w1 = w1' /\ t = t'.
Proof.
  intros (wm & Hin & H) (wm' & Hin' & H').
  rewrite (enters_functional _ _ _ Hin Hin') in H. split; congruence.
Qed.

Lemma unzipped_functional (w0 w2 w2' : World) (zip zip' dir dir' : Path) :
  unzipped w0 w2 zip dir -> unzipped w0 w2' zip' dir' ->
  w2 = w2' /\ zip = zip' /\ dir = dir'.
Proof.
  intros (w1 & Hd & _ & H) (w1' & Hd' & _ & H').
  destruct (downloaded_functional _ _ _ _ _ Hd Hd') as [-> ->].
  repeat split; congruence.
Qed.

(** How the call ends once the working file is known. *)
Lemma download_from_working_file (w0 w3 w3' w4 : World) (tmp_path : Path)
    (r3 rc : Outcome unit) :
  working_file w0 w3 tmp_path ->
  move_or_convert E dst_path tmp_path w3 = (r3, w3') ->
  cleanup tmp_dir w3' = (rc, w4) ->
  download w0
  = (match rc, r3 with
     | Raise e, _ => Raise e
     | Ok _, Raise e => Raise e
     | Ok _, Ok _ => Ok dst_path
     end, w4).
Proof.
  intros Hwork Hmove Hclean.
  destruct (body_working_file _ _ _ Hwork) as (wm & Hin & Hbody).
  rewrite Hmove in Hbody.
  eapply download_ends; eassumption.
Qed.

(** C2.  Once the archive is unzipped, the search decides on the number
    of matches.  With one or two matches the first one is selected: the
    call arrives at the move-or-convert step with it as the working file.
    With none, or three or more, the search raises the fatal error and no
    file is worked on: the call raises that error after the clean-up (or
    the error of the clean-up, if that fails). *)
Theorem first_of_one_or_two_matches_is_selected (w0 w2 : World) (zip dir : Path) :
  unzipped w0 w2 zip dir ->
  let found := search_geofiles E dir (fs w2) in
  (length found = 1 \/ length found = 2 ->
   exists first rest, found = first :: rest
     /\ look_for_the_file E dir w2 = (Ok first, w2)
     /\ working_file w0 w2 first)
  /\ (length found = 0 \/ 3 <= length found ->
      look_for_the_file E dir w2
      = (Raise (Exception (should_find_1_geofile found)), w2)
      /\ (forall (w3 : World) (tmp_path : Path), ¬ working_file w0 w3 tmp_path)
      /\ forall (rc : Outcome unit) (w4 : World),
           cleanup tmp_dir w2 = (rc, w4) ->
           download w0
           = (match rc with
              | Ok _ => Raise (Exception (should_find_1_geofile found))
              | Raise e => Raise e
              end, w4)).
Proof.
  intros Hun found. split.
  - intros Hlen.
    assert (exists first rest, found = first :: rest
              /\ look_for_the_file E dir w2 = (Ok first, w2)) as (first & rest & Hf & Hl).
    { rewrite look_for_the_file_run. fold found.
      destruct found as [|p [|q [|r l]]]; simpl in Hlen; try lia; eauto. }
    exists first, rest. repeat (split; [assumption|]).
    right. exists w2, zip, dir. now split.
  - intros Hlen.
    assert (look_for_the_file E dir w2
            = (Raise (Exception (should_find_1_geofile found)), w2)) as Hl.
    { rewrite look_for_the_file_run. fold found.
      destruct found as [|p [|q [|r l]]]; simpl in Hlen; try lia; reflexivity. }
    split; [assumption|]. split.
    + intros w3 tmp_path [[Hd Hzip]|(w2' & zip' & dir' & Hun' & Hlook)].
      * destruct Hun as (w1 & Hd' & Hzip' & _).
        destruct (downloaded_functional _ _ _ _ _ Hd Hd') as [_ ->]. contradiction.
      * destruct (unzipped_functional _ _ _ _ _ _ _ Hun Hun') as (<- & _ & <-).
        congruence.
    + intros rc w4 Hclean.
      destruct (body_unzipped _ _ _ _ Hun) as (wm & Hin & Hbody).
      rewrite (bind_raise _ _ _ _ _ Hl) in Hbody.
      rewrite (download_ends _ _ _ _ _ _ _ _ _ _ _ Hin Hbody Hclean).
      now destruct rc as [[]|e].
Qed.

(** C5, as the code has it.  When the call arrives at line 144 with a
    working file that is not the destination path itself, then: if the two
    suffixes are the same, the file is moved, with [shutil.move] when the
    suffix is [.tif] and with the move of [geofileops] otherwise; if the
    suffixes differ, [makevalid] of [geofileops] is called to write the
    destination.  When the working file is the destination path itself,
    nothing is moved or converted: the step returns at once, in the same
    world, with no operation issued.  Either way the call then ends with
    the clean-up, and returns the destination when the step and the
    clean-up went through. *)
Theorem working_file_is_moved_or_converted (w0 w3 : World) (tmp_path : Path) :
  working_file w0 w3 tmp_path ->
  (dst_path <> tmp_path ->
   (Pathlib.suffix dst_path = Pathlib.suffix tmp_path ->
    Pathlib.suffix dst_path = ".tif" ->
    move_or_convert E dst_path tmp_path w3
    = call (EShutilMove tmp_path dst_path) (shutil_move E tmp_path dst_path) w3)
   /\ (Pathlib.suffix dst_path = Pathlib.suffix tmp_path ->
       Pathlib.suffix dst_path <> ".tif" ->
       move_or_convert E dst_path tmp_path w3
       = call (EGfoMove tmp_path dst_path) (gfo_move E tmp_path dst_path) w3)
   /\ (Pathlib.suffix dst_path <> Pathlib.suffix tmp_path ->
       move_or_convert E dst_path tmp_path w3
       = bind (logger_info ("Convert tmp file to " +:+ Pathlib.str dst_path))
              (λ _, call (EGfoMakevalid tmp_path dst_path)
                         (gfo_makevalid E tmp_path dst_path)) w3))
  /\ (dst_path = tmp_path ->
      move_or_convert E dst_path tmp_path w3 = (Ok tt, w3)
      /\ forall (rc : Outcome unit) (w4 : World),
           cleanup tmp_dir w3 = (rc, w4) ->
           download w0
           = (match rc with
              | Raise e => Raise e
              | Ok _ => Ok dst_path
              end, w4))
  /\ forall (r3 rc : Outcome unit) (w3' w4 : World),
       move_or_convert E dst_path tmp_path w3 = (r3, w3') ->
       cleanup tmp_dir w3' = (rc, w4) ->
       download w0
       = (match rc, r3 with
          | Raise e, _ => Raise e
          | Ok _, Raise e => Raise e
          | Ok _, Ok _ => Ok dst_path
          end, w4).
Proof.
  intros Hwork.
  assert (dst_path = tmp_path -> move_or_convert E dst_path tmp_path w3 = (Ok tt, w3))
    as Hsame.
  { intros Heq. unfold move_or_convert.
    rewrite bool_decide_eq_false_2; [reflexivity|]. intros Hne. now apply Hne. }
  split; [|split].
  - intros Hne. unfold move_or_convert.
    rewrite (bool_decide_eq_true_2 _ Hne).
    split; [|split].
    + intros Hs Ht. apply String.eqb_eq in Hs, Ht. now rewrite Hs, Ht.
    + intros Hs Ht. apply String.eqb_eq in Hs. apply String.eqb_neq in Ht.
      now rewrite Hs, Ht.
    + intros Hs. apply String.eqb_neq in Hs. now rewrite Hs.
  - intros Heq. split; [now apply Hsame|].
    intros rc w4 Hclean.
    rewrite (download_from_working_file _ _ _ _ _ _ _ Hwork (Hsame Heq) Hclean).
    now destruct rc as [[]|e].
  - intros r3 rc w3' w4 Hmove Hclean.
    eapply download_from_working_file; eassumption.
Qed.

(** C8, as the code has it.  The file downloaded into the scratch
    directory is the scratch directory joined with the stem of the
    destination followed by the source suffix in lower case; when that text
    is a plain file name, it is the name of the file, directly in the
    scratch directory. *)
Theorem scratch_download_is_stem_and_lowered_suffix (w0 w1 : World) (tmp_path : Path) :
  downloaded w0 w1 tmp_path ->
  tmp_path = tmp_dir // (Pathlib.stem dst_path +:+ PyStr.lower download_suffix)
  /\ last (journal w1) = Some (EUrlretrieve url tmp_path)
  /\ (is_file_name (Pathlib.stem dst_path +:+ PyStr.lower download_suffix) = true ->
      Pathlib.name tmp_path = Pathlib.stem dst_path +:+ PyStr.lower download_suffix
      /\ Pathlib.parent tmp_path = tmp_dir).
Proof.
  intros (wm & _ & Hd). apply download_tmp_data_run in Hd as [-> Hlast].
  split; [reflexivity|]. split; [assumption|]. intros Hname.
  split; [now apply name_join_file_name | now apply parent_join_file_name].
Qed.

End UnpackConvert.

(** ** Text: what occurs in the message of the fatal error *)

Section TextFacts.




















End TextFacts.

(** ** The fatal error of the search *)

Section FatalError.
Import TestData.
Variable E : Platform.
Variables (url download_suffix dst_name : string) (dst_dir : option Path).

Local Abbreviation dst_path := (prepare_dst_path E dst_name dst_dir).
Local Abbreviation tmp_dir := (Pathlib.parent dst_path // "tmp").
Local Abbreviation download := (download_samplefile E url download_suffix dst_name dst_dir).


End FatalError.

(** ** The extraction directory *)

Section PathShape.
Implicit Types p : Path.

Local Abbreviation no_sep := (λ c : string, PyRepr.has_char "/" c = false).

Lemma split_no_sep_all (s : string) : Forall no_sep (PyStr.split "/" s).
Proof.
  induction s as [|a s IH]; simpl; [now constructor|].
  destruct (Ascii.eqb a "/") eqn:Ha; [now constructor|].
  destruct (PyStr.split "/" s) as [|h t].
  - constructor; [|constructor]. simpl. now rewrite Ha.
  - inversion IH; subst. constructor; [|assumption]. simpl. now rewrite Ha.
Qed.

Lemma components_no_sep (s : string) : Forall no_sep (Pathlib.components s).
Proof.
  unfold Pathlib.components. apply List.Forall_forall. intros c Hc.
  apply List.filter_In in Hc as [Hc _].
  pose proof (split_no_sep_all s) as H. rewrite List.Forall_forall in H. now apply H.
Qed.

Lemma root_of_cases (s : string) :
  Pathlib.root_of s = "" \/ Pathlib.root_of s = "/" \/ Pathlib.root_of s = "//".
Proof.
  unfold Pathlib.root_of.
  destruct (PyStr.startswith "///" s); [auto|].
  destruct (PyStr.startswith "//" s); [auto|].
  destruct (PyStr.startswith "/" s); auto.
Qed.








End PathShape.

Section ExtractionDirectory.
Import TestData.
Variable E : Platform.
Variables (url download_suffix dst_name : string) (dst_dir : option Path).

Local Abbreviation dst_path := (prepare_dst_path E dst_name dst_dir).
Local Abbreviation tmp_dir := (Pathlib.parent dst_path // "tmp").
Local Abbreviation download := (download_samplefile E url download_suffix dst_name dst_dir).


End ExtractionDirectory.

(** * More of the module *)

(** ** The registry *)

Section Registry.
Import TestData.
Variable E : Platform.



Lemma dst_name_is_file_name (self : TestFile) : is_file_name (dst_name self) = true.
Proof. now destruct self. Qed.

(** No two entries of the registry have the same destination: in one
    directory, explicit or by default, their destination paths differ. *)
Theorem registry_destinations_differ (self other : TestFile) (dst_dir : option Path) :
  prepare_dst_path E (dst_name self) dst_dir
  = prepare_dst_path E (dst_name other) dst_dir ->
  self = other.
Proof.
  unfold prepare_dst_path.
  destruct dst_dir as [dir|];
    rewrite !(join_file_name _ _ (dst_name_is_file_name _));
    intros H%app_inv_head; destruct self, other; try reflexivity; discriminate.
Qed.


End Registry.

(** ** Making directories *)

Section MkdirFacts.
Implicit Types p q : Path.










End MkdirFacts.

(** ** The destination directory and the fresh scratch directory *)

Section Preparation.
Import TestData.
Variable E : Platform.
Variables (url download_suffix dst_name : string) (dst_dir : option Path).

Local Abbreviation dst_path := (prepare_dst_path E dst_name dst_dir).
Local Abbreviation tmp_dir := (Pathlib.parent dst_path // "tmp").
Local Abbreviation tmp_path :=
  (tmp_dir // (Pathlib.stem dst_path +:+ PyStr.lower download_suffix)).
Local Abbreviation download := (download_samplefile E url download_suffix dst_name dst_dir).


Lemma tmp_file_name : is_file_name "tmp" = true.
Proof. reflexivity. Qed.


End Preparation.

(** ** What a call issues *)

Section IssuesFacts.
Context {A B : Type}.
Variable P : Event -> Prop.

Lemma issues_le (n n' : nat) (m : M A) : n <= n' -> issues P n m -> issues P n' m.
Proof.
  intros Hn Hm w w' r Hrun. destruct (Hm w w' r Hrun) as (new & Hj & HP & Hc).
  exists new. repeat split; try assumption. lia.
Qed.

Lemma issues_ret (a : A) : issues P 0 (ret a).
Proof. intros w w' r [= <- <-]. exists []. now rewrite app_nil_r. Qed.

Lemma issues_raise (e : Exn) : issues P 0 (raise e : M A).
Proof. intros w w' r [= <- <-]. exists []. now rewrite app_nil_r. Qed.

Lemma issues_query (q : FS -> Outcome A) : issues P 0 (query q).
Proof. intros w w' r [= <- <-]. exists []. now rewrite app_nil_r. Qed.

Lemma issues_bind_post (Q : A -> Prop) (n1 n2 : nat) (m : M A) (k : A -> M B) :
  issues P n1 m ->
  (forall w a w', m w = (Ok a, w') -> Q a) ->
  (forall a, Q a -> issues P n2 (k a)) ->
  issues P (n1 + n2) (bind m k).
Proof.
  intros Hm HQ Hk w w' r. unfold bind.
  destruct (m w) as [[a|e] w1] eqn:Hrun.
  - intros Hrest.
    destruct (Hm _ _ _ Hrun) as (new1 & Hj1 & HP1 & Hc1).
    destruct (Hk a (HQ _ _ _ Hrun) _ _ _ Hrest) as (new2 & Hj2 & HP2 & Hc2).
    exists (new1 ++ new2). rewrite Hj2, Hj1, <- app_assoc. split; [reflexivity|].
    split; [now apply Forall_app|].
    rewrite List.filter_app, length_app. lia.
  - intros [= <- <-].
    destruct (Hm _ _ _ Hrun) as (new1 & Hj1 & HP1 & Hc1).
    exists new1. repeat split; try assumption. lia.
Qed.

Lemma issues_bind (n1 n2 : nat) (m : M A) (k : A -> M B) :
  issues P n1 m -> (forall a, issues P n2 (k a)) -> issues P (n1 + n2) (bind m k).
Proof.
  intros Hm Hk. apply (issues_bind_post (λ _, True)); auto.
Qed.

End IssuesFacts.

Section IssuesCalls.
Variable P : Event -> Prop.

Lemma issues_call (ev : Event) (op : Effect unit) :
  P ev -> issues P (if is_network_io ev then 1 else 0) (call ev op).
Proof.
  intros Hev w w' r. unfold call. destruct (op (fs w)) as [r0 fs1].
  intros [= <- <-]. exists [ev]. split; [reflexivity|]. split; [now constructor|].
  simpl. destruct (is_network_io ev); simpl; lia.
Qed.

Lemma issues_try_finally {A : Type} (n1 n2 : nat) (body : M A) (final : M unit) :
  issues P n1 body -> issues P n2 final -> issues P (n1 + n2) (try_finally body final).
Proof.
  intros Hb Hf w w' r. unfold try_finally.
  destruct (body w) as [r1 w1] eqn:Hrun. destruct (final w1) as [rf w2] eqn:Hfin.
  destruct (Hb _ _ _ Hrun) as (new1 & Hj1 & HP1 & Hc1).
  destruct (Hf _ _ _ Hfin) as (new2 & Hj2 & HP2 & Hc2).
  intros Hres. assert (w' = w2) as -> by (destruct rf; now injection Hres).
  exists (new1 ++ new2). rewrite Hj2, Hj1, <- app_assoc. split; [reflexivity|].
  split; [now apply Forall_app|]. rewrite List.filter_app, length_app. lia.
Qed.

End IssuesCalls.

Section Operations.
Import TestData.
Variable E : Platform.
Variables (url download_suffix dst_name : string) (dst_dir : option Path).

Local Abbreviation dst_path := (prepare_dst_path E dst_name dst_dir).
Local Abbreviation tmp_dir := (Pathlib.parent dst_path // "tmp").
Local Abbreviation tmp_path :=
  (tmp_dir // (Pathlib.stem dst_path +:+ PyStr.lower download_suffix)).
Local Abbreviation allowed := (permitted E url download_suffix dst_name dst_dir).

Lemma cleanup_issues : issues allowed 0 (cleanup tmp_dir).
Proof.
  unfold cleanup. apply (issues_bind allowed 0 0); [apply issues_query|].
  intros [|]; [|apply issues_ret].
  apply (issues_call allowed (ERmtree tmp_dir)). reflexivity.
Qed.

Lemma download_tmp_data_issues :
  issues allowed 1 (download_tmp_data E url download_suffix dst_path tmp_dir).
Proof.
  unfold download_tmp_data.
  apply (issues_bind allowed 0 1); [apply issues_query|]. intros b.
  apply (issues_bind allowed 0 1).
  { destruct b; [|apply issues_ret].
    apply (issues_call allowed (ERmtree tmp_dir)). reflexivity. }
  intros _. apply (issues_bind allowed 0 1).
  { apply (issues_call allowed (EMkdir tmp_dir)). now right. }
  intros _. apply (issues_bind allowed 0 1).
  { now apply (issues_call allowed (ELoggerInfo _)). }
  intros _. apply (issues_bind allowed 1 0); [|intros; apply issues_ret].
  apply (issues_call allowed (EUrlretrieve url tmp_path)). split; auto.
Qed.

Lemma move_or_convert_issues (tmp : Path) :
  issues allowed 0 (move_or_convert E dst_path tmp).
Proof.
  unfold move_or_convert.
  destruct (bool_decide _); [|apply issues_ret].
  destruct (String.eqb _ _).
  - destruct (String.eqb _ _).
    + now apply (issues_call allowed (EShutilMove _ _)).
    + now apply (issues_call allowed (EGfoMove _ _)).
  - apply (issues_bind allowed 0 0).
    + now apply (issues_call allowed (ELoggerInfo _)).
    + intros _. now apply (issues_call allowed (EGfoMakevalid _ _)).
Qed.

Lemma look_for_the_file_issues (dir : Path) : issues allowed 0 (look_for_the_file E dir).
Proof.
  unfold look_for_the_file. apply (issues_bind allowed 0 0); [apply issues_query|].
  intros l. destruct (_ || _); [|apply issues_raise].
  destruct l; [apply issues_raise | apply issues_ret].
Qed.

Lemma unpack_and_convert_issues :
  issues allowed 1 (unpack_and_convert E url download_suffix dst_path tmp_dir).
Proof.
  unfold unpack_and_convert.
  apply (issues_bind_post allowed (λ t, t = tmp_path) 1 0).
  - apply download_tmp_data_issues.
  - intros w a w' Hrun. now apply download_tmp_data_run in Hrun as [-> _].
  - intros t ->. apply (issues_bind allowed 0 0); [|apply move_or_convert_issues].
    destruct (String.eqb _ _); [|apply issues_ret].
    apply (issues_bind allowed 0 0); [|apply look_for_the_file_issues].
    unfold unzip. apply (issues_bind allowed 0 0).
    + now apply (issues_call allowed (ELoggerInfo _)).
    + intros _. apply (issues_bind allowed 0 0); [|intros; apply issues_ret].
      apply (issues_call allowed (EExtractall tmp_path _)). now split.
Qed.

(** What one call of [download_samplefile] issues, whatever the
    collaborators do and however the call ends.  It retrieves the url at
    most once, and no other url: there is no retry.  The only directory it
    removes is the scratch directory; the only directories it makes are the
    destination directory and the scratch directory; the download goes to
    the destination or to the file in the scratch directory; the archive is
    unzipped beside the destination; whatever is moved or converted goes to
    the destination path. *)
Theorem download_samplefile_issues_only_its_operations :
  issues allowed 1 (download_samplefile E url download_suffix dst_name dst_dir).
Proof.
  unfold download_samplefile.
  apply (issues_bind allowed 0 1); [apply issues_query|].
  intros [|]; [apply (issues_le allowed 0); [lia | apply issues_ret]|].
  apply (issues_bind allowed 0 1).
  { apply (issues_call allowed (EMkdir (Pathlib.parent dst_path))). now left. }
  intros _. destruct (String.eqb _ _).
  - apply (issues_bind allowed 0 1).
    { now apply (issues_call allowed (ELoggerInfo _)). }
    intros _. apply (issues_bind allowed 1 0); [|intros; apply issues_ret].
    apply (issues_call allowed (EUrlretrieve url dst_path)). split; auto.
  - apply (issues_bind allowed 1 0); [|intros; apply issues_ret].
    apply (issues_try_finally allowed 1 0).
    + apply unpack_and_convert_issues.
    + apply cleanup_issues.
Qed.

End Operations.

(** ** Success, step by step *)

Section Success.
Import TestData.
Variable E : Platform.
Variables (url download_suffix dst_name : string) (dst_dir : option Path).

Local Abbreviation dst_path := (prepare_dst_path E dst_name dst_dir).
Local Abbreviation tmp_dir := (Pathlib.parent dst_path // "tmp").
Local Abbreviation tmp_path :=
  (tmp_dir // (Pathlib.stem dst_path +:+ PyStr.lower download_suffix)).
Local Abbreviation download := (download_samplefile E url download_suffix dst_name dst_dir).

(** No error is swallowed in the unpack/convert branch: when the call
    returns a path, the download into the scratch directory went through, a
    working file was found (the downloaded file, or the one selected in the
    archive unzipped without error), the move or conversion went through and
    so did the clean-up, whose world is the one the call leaves. *)
Theorem returned_path_means_every_step_went_through (w0 wm w' : World) (p : Path) :
  enters_unpack_convert E download_suffix dst_name dst_dir w0 wm ->
  download w0 = (Ok p, w') ->
  p = dst_path
  /\ exists (w3 w3' : World) (tmp : Path),
       working_file E url download_suffix dst_name dst_dir w0 w3 tmp
       /\ move_or_convert E dst_path tmp w3 = (Ok tt, w3')
       /\ cleanup tmp_dir w3' = (Ok tt, w').
Proof.
  intros Hin Hrun. split; [exact (download_returns _ _ _ _ _ _ _ _ Hrun)|].
  rewrite (download_unpack_convert _ _ _ _ _ _ _ Hin) in Hrun.
  unfold bind at 1 in Hrun. unfold try_finally in Hrun.
  destruct (unpack_and_convert E url download_suffix dst_path tmp_dir wm)
    as [r3 w3'] eqn:Hbody.
  destruct (cleanup tmp_dir w3') as [[[]|e] w4] eqn:Hclean; [|discriminate].
  destruct r3 as [[]|e]; [|discriminate]. injection Hrun as _ <-.
  unfold unpack_and_convert in Hbody. unfold bind at 1 in Hbody.
  destruct (download_tmp_data E url download_suffix dst_path tmp_dir wm)
    as [[t|e] w1] eqn:Hd; [|discriminate].
  unfold bind at 1 in Hbody.
  destruct (String.eqb (Pathlib.suffix t) ".zip") eqn:Hzip.
  - unfold bind at 1 in Hbody.
    destruct (unzip E dst_path t w1) as [[dir|e] w2] eqn:Hun; [|discriminate].
    destruct (look_for_the_file E dir w2) as [[first|e] w3] eqn:Hlook; [|discriminate].
    exists w3, w3', first. split; [|split; assumption].
    right. exists w2, t, dir. split; [|assumption].
    exists w1. split; [exists wm; now split|].
    split; [now apply String.eqb_eq | assumption].
  - unfold ret at 1 in Hbody.
    exists w1, w3', t. split; [|split; assumption].
    left. split; [exists wm; now split | now apply String.eqb_neq].
Qed.

(** The test of line 144 holds for ordinary names.  A downloaded file that
    is not an archive is never the destination path; a file selected in an
    archive is not the destination path as soon as the stem of the archive
    is a plain file name.  So in these cases the working file is always
    moved or converted. *)
Theorem working_file_is_not_the_destination (w0 w3 : World) (tmp : Path) :
  working_file E url download_suffix dst_name dst_dir w0 w3 tmp ->
  (Pathlib.suffix tmp_path <> ".zip" ->
   is_file_name (Pathlib.stem dst_path +:+ PyStr.lower download_suffix) = true ->
   dst_path <> tmp)
  /\ (Pathlib.suffix tmp_path = ".zip" ->
      is_file_name (Pathlib.stem tmp_path) = true ->
      dst_path <> tmp).
Proof.
  intros Hwork.
  assert (Pathlib.is_root dst_path = false) as Hroot.
  { destruct (body_working_file _ _ _ _ _ _ _ _ Hwork) as (wm & (Hmiss & _) & _).
    unfold FileSystem.exists_, FileSystem.node in Hmiss.
    now destruct (Pathlib.is_root dst_path). }
  assert (length dst_path = S (length (Pathlib.parent dst_path))) as Hlen.
  { unfold Pathlib.parent. rewrite Hroot.
    assert (dst_path <> []) as Hne by (intros Heq; now rewrite Heq in Hroot).
    rewrite (app_removelast_last "" Hne) at 1. rewrite length_app. simpl. lia. }
  destruct Hwork as [[(wm & _ & Hd) Hzip]|(w2 & zip & dir & Hun & Hlook)].
  - apply download_tmp_data_run in Hd as [-> _]. split; [|contradiction].
    intros _ Hname Heq. apply (f_equal length) in Heq.
    rewrite (join_file_name _ _ Hname), join_tmp, !length_app in Heq. simpl in Heq. lia.
  - destruct Hun as (w1 & (wm & _ & Hd) & Hzip & Hunzip).
    apply download_tmp_data_run in Hd as [-> _].
    apply unzip_run in Hunzip as [-> _].
    split; [contradiction|]. intros _ Hstem Heq.
    rewrite look_for_the_file_run in Hlook.
    assert (tmp ∈ search_geofiles E (Pathlib.parent dst_path // Pathlib.stem tmp_path)
                                  (fs w2)) as Hin.
    { destruct (search_geofiles E _ (fs w2)) as [|a [|b [|c l]]];
        try discriminate; injection Hlook as <- _; left. }
    rewrite search_geofiles_groups, !elem_of_app in Hin.
    assert (exists suffix, tmp ∈ rglob E (Pathlib.parent dst_path // Pathlib.stem tmp_path)
                                         suffix (fs w2)) as [suffix Hs].
    { destruct Hin as [?|[?|?]]; eauto. }
    pose proof (rglob_below E (Pathlib.parent dst_path // Pathlib.stem tmp_path)
                  suffix (fs w2)) as Hbelow.
    rewrite Forall_forall in Hbelow. destruct (Hbelow _ Hs) as [Hpre Hne].
    apply Hne. symmetry. apply prefix_length_eq; [assumption|].
    rewrite <- Heq, Hlen, (join_file_name _ _ Hstem), length_app. simpl. lia.
Qed.

End Success.

(** ** Absolute and relative destination names *)

Section DestinationName.
Import TestData.
Variable E : Platform.

Lemma components_no_anchor (s : string) :
  Pathlib.has_anchor (Pathlib.components s) = false.
Proof.
  pose proof (components_no_sep s) as Hall.
  destruct Hall as [|c l Hc _]; [reflexivity|]. now apply file_name_no_anchor.
Qed.

(** A relative destination name leads to a path below the directory, given
    or default.  An absolute destination name (it begins with a slash) makes
    the directory irrelevant: the destination is the name itself, wherever
    that is. *)
Theorem destination_is_below_the_directory_unless_absolute (dst_name : string)
    (dst_dir : option Path) :
  let dir := match dst_dir with
             | Some d => d
             | None => Pathlib.parse (gettempdir E) // "geofileops_sampledata"
             end in
  (Pathlib.root_of dst_name = "" ->
   prepare_dst_path E dst_name dst_dir = dir ++ Pathlib.components dst_name
   /\ dir `prefix_of` prepare_dst_path E dst_name dst_dir)
  /\ (Pathlib.root_of dst_name <> "" ->
      prepare_dst_path E dst_name dst_dir = Pathlib.parse dst_name
      /\ Pathlib.has_anchor (prepare_dst_path E dst_name dst_dir) = true).
Proof.
  intros dir.
  assert (prepare_dst_path E dst_name dst_dir = dir // dst_name) as ->
    by now destruct dst_dir.
  unfold Pathlib.joinpath, Pathlib.parse. split.
  - intros ->. rewrite components_no_anchor. split; [reflexivity|]. now eexists.
  - intros Hroot. destruct (root_of_cases dst_name) as [H|[H|H]];
      [contradiction| |]; rewrite H; simpl; auto.
Qed.

End DestinationName.

(** ** What [get_file] issues *)

Section GetFileOperations.
Import TestData.
Variable E : Platform.



End GetFileOperations.

(** * The properties on the reference platform *)

Import TestData Sim.

(** C1 on a cached file, on two calls in a row, and on two [get_file]. *)
Lemma cache_hit_returns_immediately_witness :
  FileSystem.exists_ fs_cached ["/"; "data"; "a.gpkg"] = true
  /\ download_samplefile (platform []) url ".zip" "a.gpkg" (Some data) (start fs_cached)
     = (Ok ["/"; "data"; "a.gpkg"], start fs_cached)
  /\ (exists w1 : World,
        download_samplefile (platform ["a.shp"]) url ".zip" "a.gpkg" (Some data)
                            (start fs_data) = (Ok ["/"; "data"; "a.gpkg"], w1)
        /\ download_samplefile (platform ["a.shp"]) url ".zip" "a.gpkg" (Some data) w1
           = (Ok ["/"; "data"; "a.gpkg"], w1))
  /\ exists w1 w2 : World,
       get_file (platform ["a.shp"]) AGRIPRC_2018 data (start fs_data)
       = (Ok ["/"; "data"; "agriprc_2018.gpkg"], w1)
       /\ get_file (platform ["a.shp"]) AGRIPRC_2018 data w1
          = (Ok ["/"; "data"; "agriprc_2018.gpkg"], w2)
       /\ fs w2 = fs w1.
Proof.
  assert (FileSystem.exists_ fs_cached ["/"; "data"; "a.gpkg"] = true) as Hex by run.
  split; [exact Hex|]. split.
  { destruct (cache_hit_returns_immediately (platform []) url ".zip" "a.gpkg" (Some data))
      as (H1 & _). now apply H1. }
  destruct (cache_hit_returns_immediately (platform ["a.shp"]) url ".zip" "a.gpkg"
              (Some data)) as (_ & H2 & H3).
  split.
  - set (w1 := (download_samplefile (platform ["a.shp"]) url ".zip" "a.gpkg" (Some data)
                                    (start fs_data)).2).
    assert (download_samplefile (platform ["a.shp"]) url ".zip" "a.gpkg" (Some data)
                                (start fs_data) = (Ok ["/"; "data"; "a.gpkg"], w1))
      as Hrun by run.
    exists w1. split; [exact Hrun|].
    destruct (H2 _ _ _ Hrun) as [_ Hagain]. apply Hagain. run.
  - set (w1 := (get_file (platform ["a.shp"]) AGRIPRC_2018 data (start fs_data)).2).
    assert (get_file (platform ["a.shp"]) AGRIPRC_2018 data (start fs_data)
            = (Ok ["/"; "data"; "agriprc_2018.gpkg"], w1)) as Hrun by run.
    assert (FileSystem.exists_ (fs w1) ["/"; "data"; "agriprc_2018.gpkg"] = true)
      as Hthere by run.
    destruct (H3 _ _ _ _ _ Hrun Hthere) as (w2 & Hagain & Hfs & _).
    exists w1, w2. auto.
Defined.

(** C2 on an archive with a shapefile and its companion, and on an empty
    archive. *)
Lemma first_of_one_or_two_matches_is_selected_witness :
  (exists (w2 : World) (zip dir : Path),
      unzipped (platform ["x/a.shp"; "x/b.shp"]) url ".zip" "a.gpkg" (Some data)
               (start fs_data) w2 zip dir
      /\ length (search_geofiles (platform ["x/a.shp"; "x/b.shp"]) dir (fs w2)) = 2
      /\ exists first : Path,
           look_for_the_file (platform ["x/a.shp"; "x/b.shp"]) dir w2 = (Ok first, w2)
           /\ head (search_geofiles (platform ["x/a.shp"; "x/b.shp"]) dir (fs w2))
              = Some first)
  /\ exists (w2 : World) (zip dir : Path),
       unzipped (platform []) url ".zip" "a.gpkg" (Some data) (start fs_data) w2 zip dir
       /\ length (search_geofiles (platform []) dir (fs w2)) = 0
       /\ look_for_the_file (platform []) dir w2
          = (Raise (Exception (should_find_1_geofile [])), w2).
Proof.
  split.
  - exists (world_unzipped (platform ["x/a.shp"; "x/b.shp"]) url ".zip" "a.gpkg"
                           (Some data) (start fs_data)),
           ["/"; "data"; "tmp"; "a.zip"], ["/"; "data"; "a"].
    match goal with |- ?U /\ _ => assert U as Hun by unzipped_here end.
    split; [exact Hun|].
    match goal with |- ?L /\ _ => assert L as Hlen by run end.
    split; [exact Hlen|].
    destruct (first_of_one_or_two_matches_is_selected _ _ _ _ _ _ _ _ _ Hun)
      as [Hsel _].
    destruct (Hsel (or_intror Hlen)) as (first & rest & Hfound & Hlook & _).
    exists first. split; [exact Hlook|]. now rewrite Hfound.
  - exists (world_unzipped (platform []) url ".zip" "a.gpkg" (Some data) (start fs_data)),
           ["/"; "data"; "tmp"; "a.zip"], ["/"; "data"; "a"].
    match goal with |- ?U /\ _ => assert U as Hun by unzipped_here end.
    split; [exact Hun|].
    match goal with |- ?L /\ _ => assert L as Hlen by run end.
    split; [exact Hlen|].
    destruct (first_of_one_or_two_matches_is_selected _ _ _ _ _ _ _ _ _ Hun)
      as [_ Hrej].
    destruct (Hrej (or_introl Hlen)) as (Hlook & _).
    rewrite Hlook. apply length_zero_iff_nil in Hlen. now rewrite Hlen.
Defined.


(** The one case in which the path [tmp] outlives a call: a regular file
    of that name was there before.  [shutil.rmtree] refuses it twice, in the
    [try] and in the [finally], and the file stays. *)
Example scratch_path_occupied_by_a_file :
  download_samplefile (platform []) url ".zip" "a.gpkg" (Some data)
                      (start (<[ ["/"; "data"; "tmp"] := File ]> fs_data))
  = (Raise (NotADirectoryError ["/"; "data"; "tmp"]),
     mkWorld (<[ ["/"; "data"; "tmp"] := File ]> fs_data)
             [EMkdir ["/"; "data"]; ERmtree ["/"; "data"; "tmp"];
              ERmtree ["/"; "data"; "tmp"]]).
Proof. run. Qed.

(** C4 on a geopackage served as [.GPKG]. *)
Lemma direct_download_skips_scratch_witness :
  FileSystem.exists_ fs_data ["/"; "data"; "a.gpkg"] = false
  /\ PyStr.lower ".GPKG" = PyStr.lower (Pathlib.suffix ["/"; "data"; "a.gpkg"])
  /\ download_samplefile (platform []) url ".GPKG" "a.gpkg" (Some data) (start fs_data)
     = (Ok ["/"; "data"; "a.gpkg"],
        mkWorld (<[ ["/"; "data"; "a.gpkg"] := File ]> fs_data)
                [EMkdir ["/"; "data"]; ELoggerInfo "Download to /data/a.gpkg";
                 EUrlretrieve url ["/"; "data"; "a.gpkg"]]).
Proof.
  assert (FileSystem.exists_ (fs (start fs_data))
            (prepare_dst_path (platform []) "a.gpkg" (Some data)) = false) as Hmiss by run.
  assert (PyStr.lower ".GPKG"
          = PyStr.lower (Pathlib.suffix (prepare_dst_path (platform []) "a.gpkg" (Some data))))
    as Hsuf by run.
  split; [exact Hmiss|]. split; [exact Hsuf|].
  pose proof (direct_download_skips_scratch (platform []) url ".GPKG" "a.gpkg" (Some data)
                (start fs_data) Hmiss Hsuf) as H.
  assert (FileSystem.mkdir (Pathlib.parent (prepare_dst_path (platform []) "a.gpkg" (Some data)))
                           (fs (start fs_data)) = Ok fs_data) as Hmk by run.
  rewrite Hmk in H. destruct H as (H & _). rewrite H. run.
Defined.

(** C5 (amended) on the two examples of the specification: a shapefile in a
    zip destined for a geopackage is converted, a GeoTIFF in a zip destined
    for a GeoTIFF is moved; and on an archive whose member [..gpkg] is
    unzipped onto the destination [..gpkg]: nothing is moved. *)
Lemma working_file_is_moved_or_converted_witness :
  (exists w3 : World,
      working_file (platform ["x/a.shp"]) url ".zip" "agriprc_2018.gpkg" (Some data)
                   (start fs_data) w3 ["/"; "data"; "agriprc_2018"; "x"; "a.shp"]
      /\ move_or_convert (platform ["x/a.shp"]) ["/"; "data"; "agriprc_2018.gpkg"]
                         ["/"; "data"; "agriprc_2018"; "x"; "a.shp"] w3
         = bind (logger_info "Convert tmp file to /data/agriprc_2018.gpkg")
                (λ _, call (EGfoMakevalid ["/"; "data"; "agriprc_2018"; "x"; "a.shp"]
                                          ["/"; "data"; "agriprc_2018.gpkg"])
                           (sim_makevalid ["/"; "data"; "agriprc_2018"; "x"; "a.shp"]
                                          ["/"; "data"; "agriprc_2018.gpkg"])) w3)
  /\ (exists w3 : World,
       working_file (platform ["r/a.tif"]) url ".zip" "s2_ndvi_2020.tif" (Some data)
                    (start fs_data) w3 ["/"; "data"; "s2_ndvi_2020"; "r"; "a.tif"]
       /\ move_or_convert (platform ["r/a.tif"]) ["/"; "data"; "s2_ndvi_2020.tif"]
                          ["/"; "data"; "s2_ndvi_2020"; "r"; "a.tif"] w3
          = call (EShutilMove ["/"; "data"; "s2_ndvi_2020"; "r"; "a.tif"]
                              ["/"; "data"; "s2_ndvi_2020.tif"])
                 (sim_rename ["/"; "data"; "s2_ndvi_2020"; "r"; "a.tif"]
                             ["/"; "data"; "s2_ndvi_2020.tif"]) w3)
  /\ exists w3 : World,
       working_file (platform ["..gpkg"]) url ".zip" "..gpkg" (Some data)
                    (start fs_data) w3 ["/"; "data"; "..gpkg"]
       /\ move_or_convert (platform ["..gpkg"]) ["/"; "data"; "..gpkg"]
                          ["/"; "data"; "..gpkg"] w3 = (Ok tt, w3).
Proof.
  split; [|split].
  - exists (world_unzipped (platform ["x/a.shp"]) url ".zip" "agriprc_2018.gpkg" (Some data)
                           (start fs_data)).
    match goal with |- ?A /\ _ => assert A as Hwork end.
    { right. eexists _, ["/"; "data"; "tmp"; "agriprc_2018.zip"],
                     ["/"; "data"; "agriprc_2018"].
      split; [unzipped_here | run]. }
    split; [exact Hwork|].
    refine (proj2 (proj2
      (proj1 (working_file_is_moved_or_converted _ _ _ _ _ _ _ _ Hwork) _)) _); run.
  - exists (world_unzipped (platform ["r/a.tif"]) url ".zip" "s2_ndvi_2020.tif" (Some data)
                           (start fs_data)).
    match goal with |- ?A /\ _ => assert A as Hwork end.
    { right. eexists _, ["/"; "data"; "tmp"; "s2_ndvi_2020.zip"],
                     ["/"; "data"; "s2_ndvi_2020"].
      split; [unzipped_here | run]. }
    split; [exact Hwork|].
    refine (proj1
      (proj1 (working_file_is_moved_or_converted _ _ _ _ _ _ _ _ Hwork) _) _ _); run.
  - exists (world_unzipped (platform ["..gpkg"]) url ".zip" "..gpkg" (Some data)
                           (start fs_data)).
    match goal with |- ?A /\ _ => assert A as Hwork end.
    { right. eexists _, ["/"; "data"; "tmp"; "..zip"], ["/"; "data"].
      split; [unzipped_here | run]. }
    split; [exact Hwork|].
    refine (proj1 (proj1 (proj2
      (working_file_is_moved_or_converted _ _ _ _ _ _ _ _ Hwork)) _)); run.
Defined.

(** C5 as stated fails when the working file is the destination itself: the
    destination [..gpkg] has the stem [.], the archive is unzipped into the
    destination directory, and a member [..gpkg] is found at the destination
    path.  The suffixes are the same vector suffix, and nothing is moved. *)
Lemma working_file_at_destination_is_not_moved :
  exists w3 w' : World,
    working_file (platform ["..gpkg"]) url ".zip" "..gpkg" (Some data)
                 (start fs_data) w3 ["/"; "data"; "..gpkg"]
    /\ Pathlib.suffix ["/"; "data"; "..gpkg"] = ".gpkg"
    /\ prepare_dst_path (platform ["..gpkg"]) "..gpkg" (Some data) = ["/"; "data"; "..gpkg"]
    /\ move_or_convert (platform ["..gpkg"]) ["/"; "data"; "..gpkg"]
                       ["/"; "data"; "..gpkg"] w3 = (Ok tt, w3)
    /\ download_samplefile (platform ["..gpkg"]) url ".zip" "..gpkg" (Some data)
                           (start fs_data) = (Ok ["/"; "data"; "..gpkg"], w')
    /\ Forall (λ ev, match ev with
                     | EGfoMove _ _ | EShutilMove _ _ | EGfoMakevalid _ _ => False
                     | _ => True
                     end) (journal w').
Proof.
  exists (world_unzipped (platform ["..gpkg"]) url ".zip" "..gpkg" (Some data) (start fs_data)),
         (download_samplefile (platform ["..gpkg"]) url ".zip" "..gpkg" (Some data)
                              (start fs_data)).2.
  split.
  { right. eexists _, ["/"; "data"; "tmp"; "..zip"], ["/"; "data"].
    split; [unzipped_here | run]. }
  repeat (split; [run|]).
  vm_compute. repeat constructor.
Defined.




(** C8 (amended) on a source suffix in upper case. *)
Lemma scratch_download_is_stem_and_lowered_suffix_witness :
  exists w1 : World,
    downloaded (platform []) url ".ZIP" "a.gpkg" (Some data) (start fs_data) w1
               ["/"; "data"; "tmp"; "a.zip"]
    /\ is_file_name (Pathlib.stem (prepare_dst_path (platform []) "a.gpkg" (Some data))
                     +:+ PyStr.lower ".ZIP") = true
    /\ Pathlib.name ["/"; "data"; "tmp"; "a.zip"]
       = Pathlib.stem (prepare_dst_path (platform []) "a.gpkg" (Some data))
         +:+ PyStr.lower ".ZIP"
    /\ last (journal w1) = Some (EUrlretrieve url ["/"; "data"; "tmp"; "a.zip"]).
Proof.
  exists (world_downloaded (platform []) url ".ZIP" "a.gpkg" (Some data) (start fs_data)).
  match goal with |- ?D /\ ?N /\ _ => assert D as Hd by downloaded_here; assert N as Hn by run end.
  split; [exact Hd|]. split; [exact Hn|].
  destruct (scratch_download_is_stem_and_lowered_suffix _ _ _ _ _ _ _ _ Hd)
    as (_ & Hlast & Hname).
  split; [exact (proj1 (Hname Hn)) | exact Hlast].
Defined.

(** C8 as stated fails: the source suffix [.ZIP] is not kept as given. *)
Lemma scratch_download_suffix_is_not_as_given :
  exists w1 : World,
    downloaded (platform []) url ".ZIP" "a.gpkg" (Some data) (start fs_data) w1
               ["/"; "data"; "tmp"; "a.zip"]
    /\ Pathlib.name ["/"; "data"; "tmp"; "a.zip"] = "a.zip"
    /\ Pathlib.stem (prepare_dst_path (platform []) "a.gpkg" (Some data)) +:+ ".ZIP" = "a.ZIP"
    /\ Pathlib.name ["/"; "data"; "tmp"; "a.zip"]
       <> Pathlib.stem (prepare_dst_path (platform []) "a.gpkg" (Some data)) +:+ ".ZIP".
Proof.
  exists (world_downloaded (platform []) url ".ZIP" "a.gpkg" (Some data) (start fs_data)).
  split; [downloaded_here|]. repeat split; run.
Defined.

(** C9 on an unzipped archive that holds a geopackage and a shapefile: the
    shapefile is selected. *)
Lemma search_order_shp_gpkg_tif_witness :
  look_for_the_file (platform []) ["/"; "data"; "a"] (start fs_two_formats)
  = (Ok ["/"; "data"; "a"; "b.shp"], start fs_two_formats)
  /\ ["/"; "data"; "a"; "a.gpkg"]
     ∈ search_geofiles (platform []) ["/"; "data"; "a"] fs_two_formats
  /\ format_rank ["/"; "data"; "a"; "b.shp"] <= format_rank ["/"; "data"; "a"; "a.gpkg"]
  /\ Pathlib.match_star ".shp" ["/"; "data"; "a"; "b.shp"] = true.
Proof.
  assert (look_for_the_file (platform []) ["/"; "data"; "a"] (start fs_two_formats)
          = (Ok ["/"; "data"; "a"; "b.shp"], start fs_two_formats)) as Hlook by run.
  assert (["/"; "data"; "a"; "a.gpkg"]
          ∈ search_geofiles (platform []) ["/"; "data"; "a"] (fs (start fs_two_formats)))
    as Hin by (apply list_elem_of_In; vm_compute; auto).
  assert (["/"; "data"; "a"; "b.shp"]
          ∈ search_geofiles (platform []) ["/"; "data"; "a"] (fs (start fs_two_formats)))
    as Hshp by (apply list_elem_of_In; vm_compute; auto).
  split; [exact Hlook|]. split; [exact Hin|].
  destruct (search_order_shp_gpkg_tif (platform []) ["/"; "data"; "a"] (start fs_two_formats))
    as (_ & _ & _ & _ & Hsel).
  destruct (Hsel _ _ Hlook) as (_ & Hmin & Hfirst).
  split; [exact (Hmin _ Hin) | apply (Hfirst _ Hshp); run].
Defined.




(** * More of the module, on the reference platform *)

(** Two entries of the registry, in one directory. *)
Lemma registry_destinations_differ_witness :
  prepare_dst_path (platform []) (dst_name S2_NDVI_2020) (Some data)
  = prepare_dst_path (platform []) (dst_name S2_NDVI_2020) (Some data)
  /\ S2_NDVI_2020 = S2_NDVI_2020
  /\ prepare_dst_path (platform []) (dst_name AGRIPRC_2018) (Some data)
     <> prepare_dst_path (platform []) (dst_name AGRIPRC_2019) (Some data).
Proof.
  split; [reflexivity|]. split.
  - exact (registry_destinations_differ (platform []) S2_NDVI_2020 S2_NDVI_2020
             (Some data) eq_refl).
  - intros H. apply registry_destinations_differ in H. discriminate H.
Defined.




(** The operations of a call that unzips and converts. *)
Lemma download_samplefile_issues_only_its_operations_witness :
  exists (w' : World) (new : list Event),
    download_samplefile (platform ["x/a.shp"]) url ".zip" "a.gpkg" (Some data)
                        (start fs_data) = (Ok ["/"; "data"; "a.gpkg"], w')
    /\ journal w' = new
    /\ Forall (permitted (platform ["x/a.shp"]) url ".zip" "a.gpkg" (Some data)) new
    /\ length (List.filter is_network_io new) <= 1.
Proof.
  set (w' := (download_samplefile (platform ["x/a.shp"]) url ".zip" "a.gpkg" (Some data)
                                  (start fs_data)).2).
  assert (download_samplefile (platform ["x/a.shp"]) url ".zip" "a.gpkg" (Some data)
                              (start fs_data) = (Ok ["/"; "data"; "a.gpkg"], w'))
    as Hrun by run.
  destruct (download_samplefile_issues_only_its_operations _ _ _ _ _ _ _ _ Hrun)
    as (new & Hj & Hall & Hcount).
  exists w', new. split; [exact Hrun|]. split; [exact Hj|]. split; assumption.
Defined.


(** A returned path, and the steps behind it. *)
Lemma returned_path_means_every_step_went_through_witness :
  exists (wm w' : World),
    enters_unpack_convert (platform ["x/a.shp"]) ".zip" "a.gpkg" (Some data)
                          (start fs_data) wm
    /\ download_samplefile (platform ["x/a.shp"]) url ".zip" "a.gpkg" (Some data)
                           (start fs_data) = (Ok ["/"; "data"; "a.gpkg"], w')
    /\ exists (w3 w3' : World) (tmp : Path),
         working_file (platform ["x/a.shp"]) url ".zip" "a.gpkg" (Some data)
                      (start fs_data) w3 tmp
         /\ cleanup ["/"; "data"; "tmp"] w3' = (Ok tt, w').
Proof.
  exists (world_entered (platform ["x/a.shp"]) "a.gpkg" (Some data) (start fs_data)),
         (download_samplefile (platform ["x/a.shp"]) url ".zip" "a.gpkg" (Some data)
                              (start fs_data)).2.
  match goal with |- ?A /\ ?B /\ _ => assert A as Hin by enters; assert B as Hrun by run end.
  split; [exact Hin|]. split; [exact Hrun|].
  destruct (returned_path_means_every_step_went_through _ _ _ _ _ _ _ _ _ Hin Hrun)
    as (_ & w3 & w3' & tmp & Hwork & _ & Hclean).
  exists w3, w3', tmp. split; [exact Hwork | exact Hclean].
Defined.

(** The file selected in the archive [a.zip] is not the destination. *)
Lemma working_file_is_not_the_destination_witness :
  exists w3 : World,
    working_file (platform ["x/a.shp"]) url ".zip" "a.gpkg" (Some data)
                 (start fs_data) w3 ["/"; "data"; "a"; "x"; "a.shp"]
    /\ Pathlib.suffix ["/"; "data"; "tmp"; "a.zip"] = ".zip"
    /\ is_file_name (Pathlib.stem ["/"; "data"; "tmp"; "a.zip"]) = true
    /\ prepare_dst_path (platform ["x/a.shp"]) "a.gpkg" (Some data)
       <> ["/"; "data"; "a"; "x"; "a.shp"].
Proof.
  exists (world_unzipped (platform ["x/a.shp"]) url ".zip" "a.gpkg" (Some data)
                         (start fs_data)).
  match goal with |- ?A /\ _ => assert A as Hwork end.
  { right. eexists _, ["/"; "data"; "tmp"; "a.zip"], ["/"; "data"; "a"].
    split; [unzipped_here | run]. }
  split; [exact Hwork|]. split; [run|]. split; [run|].
  refine (proj2 (working_file_is_not_the_destination _ _ _ _ _ _ _ _ Hwork) _ _); run.
Defined.

(** A relative and an absolute destination name. *)
Lemma destination_is_below_the_directory_unless_absolute_witness :
  Pathlib.root_of "sub/a.gpkg" = ""
  /\ prepare_dst_path (platform []) "sub/a.gpkg" (Some data) = ["/"; "data"; "sub"; "a.gpkg"]
  /\ Pathlib.root_of "/etc/a.gpkg" <> ""
  /\ prepare_dst_path (platform []) "/etc/a.gpkg" (Some data) = ["/"; "etc"; "a.gpkg"].
Proof.
  assert (Pathlib.root_of "sub/a.gpkg" = "") as Hrel by run.
  assert (Pathlib.root_of "/etc/a.gpkg" <> "") as Habs by run.
  split; [exact Hrel|].
  destruct (destination_is_below_the_directory_unless_absolute (platform []) "sub/a.gpkg"
              (Some data)) as [Hbelow _].
  destruct (destination_is_below_the_directory_unless_absolute (platform []) "/etc/a.gpkg"
              (Some data)) as [_ Haway].
  split; [exact (proj1 (Hbelow Hrel))|]. split; [exact Habs|].
  exact (proj1 (Haway Habs)).
Defined.
